(** * quack/reduction_base.py: execution geometry of a row-wise reduction

    A shallow embedding of [ReductionBase] (quack/reduction_base.py): the
    thread-value layout planner, the shared-memory sizing and buffer layout,
    and the cluster barrier set-up, together with the properties claimed of
    them. Python integers are [Z]; a raised exception is the [Raise] branch
    of [result]; CuTe shapes, strides and coordinates are nested integer
    tuples; device primitives are recorded as a per-thread trace. *)

From Stdlib Require Import ZArith List String Ascii Bool Lia DecimalString.
Import ListNotations.
Local Open Scope Z_scope.
Set Warnings "-register-all".

(** ** Python values: exceptions, integer division, string formatting *)

Module Py.

Inductive exn : Type :=
| AssertionError (msg : option string)
| ZeroDivisionError
| NotImplementedError
| AttributeError (attr : string)
| TypeError
| IndexError
| ValueError.

Inductive result (A : Type) : Type :=
| Ok (a : A)
| Raise (e : exn).
Arguments Ok {A} a.
Arguments Raise {A} e.

Definition bind {A B : Type} (m : result A) (k : A -> result B) : result B :=
  match m with
  | Ok a => k a
  | Raise e => Raise e
  end.

Definition is_ok {A : Type} (m : result A) : bool :=
  match m with Ok _ => true | Raise _ => false end.

(** [a // b] and [a % b] on Python ints: floor division, the remainder has
    the sign of the divisor, a zero divisor raises. *)
Definition floordiv (a b : Z) : result Z :=
  if b =? 0 then Raise ZeroDivisionError else Ok (a / b).

Definition modulo (a b : Z) : result Z :=
  if b =? 0 then Raise ZeroDivisionError else Ok (a mod b).

(** [str(n)], as an f-string renders an int. *)
Definition str (n : Z) : string := NilZero.string_of_int (Z.to_int n).

(** [assert cond, msg] and the bare [assert cond]. *)
Definition assert_ (cond : bool) (msg : option string) : result unit :=
  if cond then Ok tt else Raise (AssertionError msg).

End Py.

Import Py.

Declare Scope py_scope.
Delimit Scope py_scope with py.
Notation "x <- m ;; k" := (Py.bind m (fun x => k))
  (at level 61, m at next level, right associativity) : py_scope.
Notation "' pat <- m ;; k" := (Py.bind m (fun x => match x with pat => k end))
  (at level 61, pat pattern, m at next level, right associativity) : py_scope.
Notation "m ;;; k" := (Py.bind m (fun _ => k))
  (at level 61, right associativity) : py_scope.
Local Open Scope py_scope.

(** ** cutlass numeric types: only the bit width is consulted *)

Module cutlass.

Record Numeric : Type := { name : string; width : Z }.

Definition Float16 : Numeric := {| name := "Float16"; width := 16 |}.
Definition BFloat16 : Numeric := {| name := "BFloat16"; width := 16 |}.
Definition Float32 : Numeric := {| name := "Float32"; width := 32 |}.
Definition Int64 : Numeric := {| name := "Int64"; width := 64 |}.

(** [cutlass.const_expr] marks a compile-time value and returns it. *)
Definition const_expr {A : Type} (a : A) : A := a.

End cutlass.

(** ** CuTe layouts

    The part of the CuTe layout algebra the planner calls: integer tuples,
    layouts as a (shape, stride) pair, the layout function, [size], [cosize],
    [make_layout], [make_ordered_layout], [size_in_bytes], [ceil_div]. The
    constructors of layouts reject an extent that is not positive, and
    [ceil_div] computes in 32 bits. *)

Module cute.

Inductive IntTuple : Type :=
| Int (n : Z)
| Tuple (ts : list IntTuple).

Record Layout : Type := { shape : IntTuple; stride : IntTuple }.

(** The largest 32-bit signed integer. *)
Definition INT32_MAX : Z := 2147483647.

(** [cute.size]: the product of the leaves of a shape. *)
Fixpoint size (s : IntTuple) : Z :=
  match s with
  | Int n => n
  | Tuple ts => fold_right (fun t acc => size t * acc) 1 ts
  end.

(** [t[i]] on a Python tuple, for a non-negative index. *)
Definition getitem (t : IntTuple) (i : nat) : result IntTuple :=
  match t with
  | Int _ => Raise TypeError
  | Tuple ts =>
      match nth_error ts i with
      | Some x => Ok x
      | None => Raise IndexError
      end
  end.

(** An operand of integer arithmetic must be an integer. *)
Definition as_int (t : IntTuple) : result Z :=
  match t with
  | Int n => Ok n
  | Tuple _ => Raise TypeError
  end.

(** [cute.size(layout, mode=[i])]: the size of one top-level mode. *)
Definition size_mode (l : Layout) (i : nat) : result Z :=
  m <- getitem (shape l) i ;; Ok (size m).

(** The layout function [crd2idx]: a coordinate, which is an integer or a
    tuple congruent with the shape, is sent to the inner product of its
    natural coordinate with the strides. An integer coordinate over a
    tuple shape is split colexicographically (leftmost mode fastest). *)
Fixpoint crd2idx (c s d : IntTuple) {struct s} : Z :=
  match s, d with
  | Int _, Int k =>
      match c with
      | Int i => i * k
      | Tuple _ => 0
      end
  | Tuple ss, Tuple ds =>
      match c with
      | Int i =>
          (fix split (i : Z) (ss ds : list IntTuple) {struct ss} : Z :=
             match ss, ds with
             | s1 :: ss', d1 :: ds' =>
                 crd2idx (Int (i mod size s1)) s1 d1 + split (i / size s1) ss' ds'
             | _, _ => 0
             end) i ss ds
      | Tuple cs =>
          (fix dot (cs ss ds : list IntTuple) {struct ss} : Z :=
             match cs, ss, ds with
             | c1 :: cs', s1 :: ss', d1 :: ds' =>
                 crd2idx c1 s1 d1 + dot cs' ss' ds'
             | _, _, _ => 0
             end) cs ss ds
      end
  | _, _ => 0
  end.

Definition apply (l : Layout) (c : IntTuple) : Z :=
  crd2idx c (shape l) (stride l).

(** A coordinate lies in the domain of a shape: an integer is a linear
    index below the size, a tuple is checked mode by mode. *)
Fixpoint in_domain (c s : IntTuple) {struct s} : bool :=
  match c with
  | Int i => (0 <=? i) && (i <? size s)
  | Tuple cs =>
      match s with
      | Int _ => false
      | Tuple ss =>
          (fix all2 (cs ss : list IntTuple) {struct ss} : bool :=
             match cs, ss with
             | [], [] => true
             | c1 :: cs', s1 :: ss' => in_domain c1 s1 && all2 cs' ss'
             | _, _ => false
             end) cs ss
      end
  end.

(** [cute.cosize]: one past the largest offset the layout reaches. *)
Definition cosize (l : Layout) : Z :=
  apply l (Int (size (shape l) - 1)) + 1.

(** A shape all of whose extents are positive; the constructors of layouts
    raise ValueError on any other. *)
Fixpoint all_positive (s : IntTuple) : bool :=
  match s with
  | Int n => 0 <? n
  | Tuple ts => forallb all_positive ts
  end.

(** Compact strides of a shape, leftmost leaf fastest, starting at stride
    [base]; a mode of extent 1 gets stride 0. *)
Fixpoint compact_col_major (s : IntTuple) (base : Z) {struct s} : IntTuple :=
  match s with
  | Int n => Int (if n =? 1 then 0 else base)
  | Tuple ts =>
      Tuple ((fix go (ts : list IntTuple) (base : Z) {struct ts} : list IntTuple :=
                match ts with
                | [] => []
                | t :: ts' => compact_col_major t base :: go ts' (base * size t)
                end) ts base)
  end.

(** [cute.make_layout(shape, stride=stride)]. *)
Definition make_layout_stride (s d : IntTuple) : result Layout :=
  if all_positive s then Ok {| shape := s; stride := d |} else Raise ValueError.

(** [cute.make_layout(shape)]: without strides the layout is compact
    column-major. *)
Definition make_layout (s : IntTuple) : result Layout :=
  if all_positive s
  then Ok {| shape := s; stride := compact_col_major s 1 |}
  else Raise ValueError.

(** [cute.make_ordered_layout(shape, order)] for a tuple shape with one
    integer of order per top-level mode: the modes are made compact in
    increasing order value, so the stride of a mode starts at the product
    of the sizes of the modes that precede it in the order; inside a
    mode the leaves are compact column-major. *)
Definition stride_base (ss : list IntTuple) (order : list Z) (o : Z) : Z :=
  fold_right (fun so acc => if snd so <? o then size (fst so) * acc else acc)
             1 (combine ss order).

Definition make_ordered_layout (s : IntTuple) (order : list Z) : result Layout :=
  if all_positive s then
    match s with
    | Int n => Ok {| shape := Int n; stride := compact_col_major (Int n) 1 |}
    | Tuple ss =>
        Ok {| shape := Tuple ss;
              stride := Tuple (map (fun so => compact_col_major (fst so)
                                                (stride_base ss order (snd so)))
                                   (combine ss order)) |}
    end
  else Raise ValueError.

(** [cute.size_in_bytes(dtype, layout)]. *)
Definition size_in_bytes (dtype : cutlass.Numeric) (l : Layout) : Z :=
  cosize l * cutlass.width dtype / 8.

(** A 32-bit signed integer after wrap-around. *)
Definition wrap32 (z : Z) : Z := (z + 2147483648) mod 4294967296 - 2147483648.

(** [cute.ceil_div(a, b)] on static integers: the extent [a] must be
    positive; the quotient of [a + b - 1] by [b] is computed in 32 bits,
    truncating. *)
Definition ceil_div (a b : Z) : result Z :=
  if a <=? 0 then Raise ValueError
  else if b =? 0 then Raise ValueError
  else Ok (Z.quot (wrap32 (a + b - 1)) b).

(** A [cute.Pointer] into shared memory: a byte address together with the
    type it points to; [p + i] advances by [i] elements. *)
Record Pointer : Type := { dtype : cutlass.Numeric; addr : Z }.

Definition ptr_add (p : Pointer) (i : Z) : Pointer :=
  {| dtype := dtype p; addr := addr p + i * (cutlass.width (dtype p) / 8) |}.

Record Tensor : Type :=
  { element_type : cutlass.Numeric; iterator : Pointer; layout : Layout }.

Module arch.

(** Hardware constant [cute.arch.WARP_SIZE]. *)
Definition WARP_SIZE : Z := 32.

(** The primitives [_initialize_cluster] issues, as one thread sees them. *)
Inductive op : Type :=
| mbarrier_init_arrive_cnt (mbar : Pointer) (cnt : Z)
| mbarrier_init_fence
| mbarrier_init_tx_bytes (mbar : Pointer) (bytes : Z)
| cluster_arrive_relaxed.

End arch.

End cute.

(** ** The shared-memory allocator and quack's own helpers *)

Module cutlass_utils.

(** [cutlass.utils.SmemAllocator]: a bump allocator over the block's
    shared memory. The state is the next free byte offset and the log of
    regions handed out, as (address, bytes). *)
Record SmemAllocator : Type := { next_free : Z; regions : list (Z * Z) }.

Definition align_up (a alignment : Z) : Z :=
  (a + alignment - 1) / alignment * alignment.

Definition allocate (smem : SmemAllocator) (bytes alignment : Z)
  : Z * SmemAllocator :=
  let a := align_up (next_free smem) alignment in
  (a, {| next_free := a + bytes; regions := regions smem ++ [(a, bytes)] |}).

(** A tensor is aligned to [byte_alignment] and at least to the size of its
    element. *)
Definition allocate_tensor (smem : SmemAllocator) (dtype : cutlass.Numeric)
    (l : cute.Layout) (byte_alignment : Z) : cute.Tensor * SmemAllocator :=
  let alignment := Z.max byte_alignment (cutlass.width dtype / 8) in
  let '(a, smem') := allocate smem (cute.size_in_bytes dtype l) alignment in
  ({| cute.element_type := dtype;
      cute.iterator := {| cute.dtype := dtype; cute.addr := a |};
      cute.layout := l |}, smem').

Definition allocate_array (smem : SmemAllocator) (dtype : cutlass.Numeric)
    (num_elems : Z) : cute.Pointer * SmemAllocator :=
  let bytes := cutlass.width dtype / 8 in
  let '(a, smem') := allocate smem (bytes * num_elems) bytes in
  ({| cute.dtype := dtype; cute.addr := a |}, smem').

End cutlass_utils.

Module utils.

(** Modelled from the spec: [quack.utils.max_constexpr], whose source lies
    outside this file; section 4.3 reads it as the maximum of its two
    arguments. *)
Definition max_constexpr (a b : Z) : Z := Z.max a b.

End utils.

(** ** torch dtypes and the module-level table *)

Module torch.

(** Some of torch's dtypes; the table below has three of them as keys. *)
Inductive dtype : Type :=
| float16 | bfloat16 | float32 | float64
| int8 | int16 | int32 | int64 | uint8 | bool.

Definition dtype_eqb (a b : dtype) : Datatypes.bool :=
  match a, b with
  | float16, float16 | bfloat16, bfloat16 | float32, float32
  | float64, float64 | int8, int8 | int16, int16 | int32, int32
  | int64, int64 | uint8, uint8 | bool, bool => true
  | _, _ => false
  end.

End torch.

(** The dict [torch2cute_dtype_map], in insertion order. *)
Definition torch2cute_dtype_map : list (torch.dtype * cutlass.Numeric) :=
  [ (torch.float16, cutlass.Float16);
    (torch.bfloat16, cutlass.BFloat16);
    (torch.float32, cutlass.Float32) ].

(** [d[key]] on a dict; [None] stands for the KeyError of a missing key. *)
Fixpoint dict_getitem (d : list (torch.dtype * cutlass.Numeric)) (key : torch.dtype)
  : option cutlass.Numeric :=
  match d with
  | [] => None
  | (k, v) :: d' => if torch.dtype_eqb k key then Some v else dict_getitem d' key
  end.

(** ** class ReductionBase *)

(** The attributes of an instance. [cluster_n] is not assigned by
    [__init__]; it exists once [_set_cluster_n] has run. *)
Record Self : Type :=
  { dtype : cutlass.Numeric;
    N : Z;
    stage : Z;
    reduction_dtype : cutlass.Numeric;
    cluster_n : option Z }.

(** [ReductionBase.__init__], with the default [reduction_dtype]. *)
Definition __init__ (dtype : cutlass.Numeric) (N stage : Z)
    (reduction_dtype : cutlass.Numeric) : Self :=
  {| dtype := dtype; N := N; stage := stage;
     reduction_dtype := reduction_dtype; cluster_n := None |}.

Definition get_cluster_n (self : Self) : result Z :=
  match cluster_n self with
  | Some c => Ok c
  | None => Raise (AttributeError "cluster_n")
  end.

(** The methods a concrete kernel overrides; calls through [self] dispatch
    to them. *)
Class Kernel : Type :=
  { calculate_threads_per_row : Self -> result Z;
    set_cluster_n : Self -> Self;
    get_num_threads : Self -> Z }.

Definition _calculate_threads_per_row (self : Self) : result Z :=
  Raise NotImplementedError.

Definition _set_cluster_n (self : Self) : Self :=
  {| dtype := dtype self; N := N self; stage := stage self;
     reduction_dtype := reduction_dtype self; cluster_n := Some 1 |}.

Definition _get_num_threads (self : Self) : Z :=
  if N self <=? 16384 then 128 else 256.

(** The base class itself. *)
Definition ReductionBase : Kernel :=
  {| calculate_threads_per_row := _calculate_threads_per_row;
     set_cluster_n := _set_cluster_n;
     get_num_threads := _get_num_threads |}.

(** A kernel that keeps the base thread count, answers [tpr] threads per
    row and sets the cluster size to [c]. *)
Definition policy (tpr c : Z) : Kernel :=
  {| calculate_threads_per_row := fun _ => Ok tpr;
     set_cluster_n := fun self =>
       {| dtype := dtype self; N := N self; stage := stage self;
          reduction_dtype := reduction_dtype self; cluster_n := Some c |};
     get_num_threads := _get_num_threads |}.

(** A kernel with its own thread count [nt], [tpr] threads per row and
    cluster size [c]. *)
Definition policy_threads (nt tpr c : Z) : Kernel :=
  {| calculate_threads_per_row := fun _ => Ok tpr;
     set_cluster_n := fun self =>
       {| dtype := dtype self; N := N self; stage := stage self;
          reduction_dtype := reduction_dtype self; cluster_n := Some c |};
     get_num_threads := fun _ => nt |}.

Section Methods.

Context {K : Kernel}.

Definition divisibility_message (n vecsize : Z) : string :=
  ("Input N " ++ Py.str n ++ " is not divisible by vector size "
     ++ Py.str vecsize)%string.

Definition _get_tv_layout (self : Self) : result (cute.IntTuple * cute.Layout) :=
  let copy_bits := 128 in
  vecsize <- Py.floordiv copy_bits (cutlass.width (dtype self)) ;;
  r <- Py.modulo (N self) vecsize ;;
  Py.assert_ (r =? 0) (Some (divisibility_message (N self) vecsize)) ;;;
  let num_threads := get_num_threads self in
  r' <- Py.modulo num_threads cute.arch.WARP_SIZE ;;
  Py.assert_ (r' =? 0) None ;;;
  threads_per_row <- calculate_threads_per_row self ;;
  chunks <- Py.floordiv (N self) vecsize ;;
  cluster <- get_cluster_n self ;;
  num_blocks_N <- cute.ceil_div chunks (threads_per_row * cluster) ;;
  cols_per_block <- Py.floordiv num_threads threads_per_row ;;
  let tiler_mn :=
    cute.Tuple [cute.Int cols_per_block;
                cute.Int (vecsize * num_blocks_N * threads_per_row)] in
  tv_layout <-
    cute.make_layout_stride
      (cute.Tuple [cute.Tuple [cute.Int cols_per_block; cute.Int threads_per_row];
                   cute.Tuple [cute.Int vecsize; cute.Int num_blocks_N]])
      (cute.Tuple [cute.Tuple [cute.Int 1; cute.Int (vecsize * cols_per_block)];
                   cute.Tuple [cute.Int cols_per_block;
                               cute.Int (cols_per_block * vecsize * threads_per_row)]]) ;;
  Ok (tiler_mn, tv_layout).

Definition _smem_size_in_bytes (self : Self) (tiler_mn : cute.IntTuple)
    (num_warps : Z) : result Z :=
  tile_layout <- cute.make_layout tiler_mn ;;
  let tile := cute.size_in_bytes (dtype self) tile_layout in
  cluster <- get_cluster_n self ;;
  Ok (tile
      + stage self * num_warps * cluster * (cutlass.width (reduction_dtype self) / 8)
      + stage self * (cutlass.width cutlass.Int64 / 8)).

Definition _get_reduction_buffer_layout (self : Self) (tv_layout : cute.Layout)
    (cluster_n : Z) : result cute.Layout :=
  threads <- cute.size_mode tv_layout 0 ;;
  num_warps <- Py.floordiv threads cute.arch.WARP_SIZE ;;
  mode0 <- cute.getitem (cute.shape tv_layout) 0 ;;
  mode00 <- cute.getitem mode0 0 ;;
  first <- cute.as_int mode00 ;;
  q <- Py.floordiv first cute.arch.WARP_SIZE ;;
  let warps_per_row := utils.max_constexpr q 1 in
  groups <- Py.floordiv num_warps warps_per_row ;;
  cute.make_ordered_layout
    (cute.Tuple [cute.Int groups;
                 cute.Tuple [cute.Int warps_per_row; cute.Int cluster_n];
                 cute.Int (stage self)])
    [1; 0; 2].

Definition _allocate_reduction_buffer_and_mbar (self : Self)
    (smem : cutlass_utils.SmemAllocator) (tv_layout : cute.Layout)
  : result ((cute.Tensor * option cute.Pointer) * cutlass_utils.SmemAllocator) :=
  cluster <- get_cluster_n self ;;
  l <- _get_reduction_buffer_layout self tv_layout cluster ;;
  let '(reduction_buffer, smem1) :=
    cutlass_utils.allocate_tensor smem (reduction_dtype self) l 4 in
  if cutlass.const_expr (1 <? cluster) then
    let '(mbar_ptr, smem2) :=
      cutlass_utils.allocate_array smem1 cutlass.Int64 (stage self) in
    Ok ((reduction_buffer, Some mbar_ptr), smem2)
  else
    Ok ((reduction_buffer, None), smem1).

(** The body of [_initialize_cluster] as thread [tidx] runs it: the
    primitives it issues, in program order. The function is traced once
    for all threads, so a missing barrier pointer is an error whatever
    [tidx] is. *)
Definition _initialize_cluster (self : Self) (tidx : Z)
    (mbar_ptr : option cute.Pointer) (num_warps : Z) : result (list cute.arch.op) :=
  cluster <- get_cluster_n self ;;
  if cutlass.const_expr (1 <? cluster) then
    match mbar_ptr with
    | None => Raise TypeError
    | Some mbar =>
        let init :=
          if tidx <? stage self
          then [cute.arch.mbarrier_init_arrive_cnt (cute.ptr_add mbar tidx) 1]
          else [] in
        let fence := [cute.arch.mbarrier_init_fence] in
        let tx :=
          if tidx <? stage self
          then [cute.arch.mbarrier_init_tx_bytes (cute.ptr_add mbar tidx)
                  (num_warps * cluster * cutlass.width (reduction_dtype self) / 8)]
          else [] in
        let arrive := [cute.arch.cluster_arrive_relaxed] in
        Ok (init ++ fence ++ tx ++ arrive)
    end
  else Ok [].

(** A geometry that the planner and the layout library accept once N is a
    multiple of the vector size: an element type of at most 128 bits, a
    positive row length, a thread count that is a multiple of the warp
    size, a threads-per-row supplied by the kernel, positive and not above
    the thread count, a positive cluster size that has been set, and every
    integer of the tile (extents, strides, size) within 32 bits. *)
Definition valid_geometry (self : Self) (tpr c : Z) : Prop :=
  let vec := 128 / cutlass.width (dtype self) in
  let nt := get_num_threads self in
  0 < cutlass.width (dtype self) <= 128
  /\ 0 < N self
  /\ nt mod cute.arch.WARP_SIZE = 0
  /\ calculate_threads_per_row self = Ok tpr
  /\ 0 < tpr <= nt
  /\ cluster_n self = Some c
  /\ 0 < c
  /\ nt * (N self + vec * tpr * c) <= cute.INT32_MAX.

End Methods.

(** ** Vocabulary of the statements *)

(** The tile and thread-value layout the planner builds from its five
    geometry parameters. *)
Definition tile_of (cols tpr vec nb : Z) : cute.IntTuple :=
  cute.Tuple [cute.Int cols; cute.Int (vec * nb * tpr)].

Definition tv_layout_of (cols tpr vec nb : Z) : cute.Layout :=
  {| cute.shape :=
       cute.Tuple [cute.Tuple [cute.Int cols; cute.Int tpr];
                   cute.Tuple [cute.Int vec; cute.Int nb]];
     cute.stride :=
       cute.Tuple [cute.Tuple [cute.Int 1; cute.Int (vec * cols)];
                   cute.Tuple [cute.Int cols; cute.Int (cols * vec * tpr)]] |}.

(** A thread, a slot of its vector and a block-chunk, as a coordinate of a
    thread-value layout: the thread index is the linear index of mode 0,
    (slot, chunk) is the coordinate in mode 1. *)
Definition tv_coord (tid v b : Z) : cute.IntTuple :=
  cute.Tuple [cute.Int tid; cute.Tuple [cute.Int v; cute.Int b]].

Definition tv_offset (tv : cute.Layout) (tid v b : Z) : Z :=
  cute.apply tv (tv_coord tid v b).

Definition tv_in_range (tv : cute.Layout) (tid v b : Z) : bool :=
  cute.in_domain (tv_coord tid v b) (cute.shape tv).

(** The triples of [tv] are sent one-to-one onto the offsets below [cap]. *)
Definition tv_bijection (tv : cute.Layout) (cap : Z) : Prop :=
  (forall tid v b, tv_in_range tv tid v b = true -> 0 <= tv_offset tv tid v b < cap)
  /\ (forall tid v b tid' v' b',
        tv_in_range tv tid v b = true -> tv_in_range tv tid' v' b' = true ->
        tv_offset tv tid v b = tv_offset tv tid' v' b' ->
        tid = tid' /\ v = v' /\ b = b')
  /\ (forall o, 0 <= o < cap ->
        exists tid v b, tv_in_range tv tid v b = true /\ tv_offset tv tid v b = o).

(** The tile (rows, width) is column-major: element [e] of row [r] sits at
    offset [r + rows * e]. Every element below [n] of every row of the
    tile is the offset of exactly one triple of [tv]. *)
Definition covers_row (tv : cute.Layout) (tiler : cute.IntTuple) (n : Z) : Prop :=
  match tiler with
  | cute.Tuple [cute.Int rows; cute.Int _] =>
      forall r e, 0 <= r < rows -> 0 <= e < n ->
        exists tid v b,
          tv_in_range tv tid v b = true /\ tv_offset tv tid v b = r + rows * e
          /\ (forall tid' v' b',
                tv_in_range tv tid' v' b' = true ->
                tv_offset tv tid' v' b' = r + rows * e ->
                tid' = tid /\ v' = v /\ b' = b)
  | _ => False
  end.

(** The reduction buffer layout in the words of section 4.3 of the
    specification: warpCount = threads / warpSize, warpsPerRow =
    max(1, threadsPerRow / warpSize), shape (warpCount / warpsPerRow,
    (warpsPerRow, clusterSize), stageCount) ordered (1, 0, 2). Kept apart
    from [_get_reduction_buffer_layout], which is the code. *)
Definition spec_reduction_buffer_layout (threads threads_per_row cluster stages : Z)
  : result cute.Layout :=
  let warpCount := threads / cute.arch.WARP_SIZE in
  let warpsPerRow := Z.max 1 (threads_per_row / cute.arch.WARP_SIZE) in
  cute.make_ordered_layout
    (cute.Tuple [cute.Int (warpCount / warpsPerRow);
                 cute.Tuple [cute.Int warpsPerRow; cute.Int cluster];
                 cute.Int stages])
    [1; 0; 2].

(** The buffer shape (g, (w, c), s) laid out in order (1, 0, 2). *)
Definition ordered_102 (g w c s : Z) : cute.Layout :=
  {| cute.shape :=
       cute.Tuple [cute.Int g; cute.Tuple [cute.Int w; cute.Int c]; cute.Int s];
     cute.stride :=
       cute.Tuple [cute.Int (if g =? 1 then 0 else w * c);
                   cute.Tuple [cute.Int (if w =? 1 then 0 else 1);
                               cute.Int (if c =? 1 then 0 else w)];
                   cute.Int (if s =? 1 then 0 else g * (w * c))] |}.

(** A coordinate (warp group, (warp in row, cluster slot), stage) of the
    reduction buffer. *)
Definition rb_coord (i j k st : Z) : cute.IntTuple :=
  cute.Tuple [cute.Int i; cute.Tuple [cute.Int j; cute.Int k]; cute.Int st].

(** The barrier a primitive writes, if it writes one. *)
Definition barrier_of (o : cute.arch.op) : option cute.Pointer :=
  match o with
  | cute.arch.mbarrier_init_arrive_cnt mbar _ => Some mbar
  | cute.arch.mbarrier_init_tx_bytes mbar _ => Some mbar
  | cute.arch.mbarrier_init_fence => None
  | cute.arch.cluster_arrive_relaxed => None
  end.

(** * Properties *)

(** ** Running the error monad *)

Lemma floordiv_Ok a b : b <> 0 -> Py.floordiv a b = Ok (a / b).
Proof.
  intros Hb. unfold Py.floordiv.
  destruct (Z.eqb_spec b 0); [contradiction | reflexivity].
Qed.

Lemma modulo_Ok a b : b <> 0 -> Py.modulo a b = Ok (a mod b).
Proof.
  intros Hb. unfold Py.modulo.
  destruct (Z.eqb_spec b 0); [contradiction | reflexivity].
Qed.

Lemma wrap32_small z : 0 <= z <= cute.INT32_MAX -> cute.wrap32 z = z.
Proof.
  unfold cute.wrap32, cute.INT32_MAX. intros Hz.
  rewrite Z.mod_small by lia. lia.
Qed.

(** Within 32 bits and on positive arguments [ceil_div] is the ceiling. *)
Lemma ceil_div_Ok a b :
  0 < a -> 0 < b -> a + b - 1 <= cute.INT32_MAX ->
  cute.ceil_div a b = Ok ((a + b - 1) / b).
Proof.
  intros Ha Hb Hfit. unfold cute.ceil_div.
  destruct (Z.leb_spec a 0); [lia |].
  destruct (Z.eqb_spec b 0); [lia |].
  rewrite wrap32_small by lia.
  rewrite Z.quot_div_nonneg by lia. reflexivity.
Qed.

(** The vector width of an element type of at most 128 bits is positive. *)
Lemma vecsize_pos w : 0 < w <= 128 -> 0 < 128 / w.
Proof. intros Hw. apply Z.div_str_pos. lia. Qed.

Lemma ceil_bounds a k :
  0 < k -> a <= k * ((a + k - 1) / k) < a + k.
Proof.
  intros Hk.
  pose proof (Z.div_mod (a + k - 1) k ltac:(lia)) as E.
  pose proof (Z.mod_pos_bound (a + k - 1) k Hk) as Hr.
  lia.
Qed.

Lemma divisible_mul_div n v : v <> 0 -> n mod v = 0 -> v * (n / v) = n.
Proof. intros Hv Hm. pose proof (Z.div_mod n v Hv). lia. Qed.

(** Discharge [valid_geometry] at a concrete object. *)
Ltac geometry :=
  unfold valid_geometry; cbn; unfold cute.INT32_MAX;
  repeat split; first [reflexivity | lia].

(** ** The layout planner, path by path *)

Section Planner.

Context {K : Kernel}.
Variable self : Self.

Let w := cutlass.width (dtype self).
Let vec := 128 / w.
Let nt := get_num_threads self.

Lemma get_tv_layout_not_divisible :
  0 < w <= 128 -> N self mod vec <> 0 ->
  _get_tv_layout self
  = Raise (AssertionError (Some (divisibility_message (N self) vec))).
Proof.
  intros Hw Hnd. pose proof (vecsize_pos w Hw) as Hv.
  unfold _get_tv_layout. fold w.
  rewrite floordiv_Ok by lia. cbn [Py.bind]. fold vec.
  rewrite modulo_Ok by lia. cbn [Py.bind].
  destruct (Z.eqb_spec (N self mod vec) 0); [contradiction | reflexivity].
Qed.

Lemma get_tv_layout_misaligned :
  0 < w <= 128 -> N self mod vec = 0 -> nt mod cute.arch.WARP_SIZE <> 0 ->
  _get_tv_layout self = Raise (AssertionError None).
Proof.
  intros Hw Hd Hna. pose proof (vecsize_pos w Hw) as Hv.
  unfold _get_tv_layout. fold w.
  rewrite floordiv_Ok by lia. cbn [Py.bind]. fold vec.
  rewrite modulo_Ok by lia. cbn [Py.bind]. rewrite Hd.
  cbn [Z.eqb Py.assert_ Py.bind]. fold nt.
  rewrite modulo_Ok by (unfold cute.arch.WARP_SIZE; lia). cbn [Py.bind].
  destruct (Z.eqb_spec (nt mod cute.arch.WARP_SIZE) 0); [contradiction | reflexivity].
Qed.

(** The numbers of a valid geometry. *)
Lemma geometry_facts tpr c :
  valid_geometry self tpr c -> N self mod vec = 0 ->
  let nb := (N self / vec + tpr * c - 1) / (tpr * c) in
  let cols := nt / tpr in
  0 < vec /\ 1 <= N self / vec /\ 0 < tpr * c
  /\ N self / vec + tpr * c - 1 <= cute.INT32_MAX
  /\ 1 <= nb /\ 1 <= cols /\ cols * tpr <= nt.
Proof.
  intros (Hw & Hn & Hal & Hp & Htpr & Hc & Hcpos & Hfit) Hd nb cols.
  fold w in Hw, Hfit. fold vec nt in Hfit. fold nt in Htpr.
  pose proof (vecsize_pos w Hw) as Hv. fold vec in Hv.
  pose proof (divisible_mul_div (N self) vec ltac:(lia) Hd) as E.
  assert (Ha : 1 <= N self / vec) by nia.
  assert (Hk : 0 < tpr * c) by nia.
  pose proof (ceil_bounds (N self / vec) (tpr * c) Hk) as Hb. fold nb in Hb.
  assert (Hcols : 1 <= cols) by (apply Z.div_le_lower_bound; lia).
  assert (Hct : cols * tpr <= nt).
  { unfold cols. rewrite Z.mul_comm. apply Z.mul_div_le. lia. }
  assert (Hsum : N self / vec + tpr * c - 1 <= nt * (N self + vec * tpr * c)).
  { assert (N self / vec <= N self) by nia.
    assert (tpr * c <= vec * tpr * c) by nia.
    assert (1 <= nt) by lia. nia. }
  repeat split; lia.
Qed.

Lemma get_tv_layout_Ok tpr c :
  valid_geometry self tpr c -> N self mod vec = 0 ->
  let nb := (N self / vec + tpr * c - 1) / (tpr * c) in
  let cols := nt / tpr in
  _get_tv_layout self = Ok (tile_of cols tpr vec nb, tv_layout_of cols tpr vec nb).
Proof.
  intros Hvalid Hd nb cols.
  destruct (geometry_facts tpr c Hvalid Hd)
    as (Hv & Ha & Hk & Hfit & Hnb & Hcols & _).
  fold nb cols in Hnb, Hcols.
  destruct Hvalid as (Hw & Hn & Hal & Hp & Htpr & Hc & Hcpos & _).
  fold w in Hw. fold nt in Hal, Htpr.
  unfold _get_tv_layout. fold w.
  rewrite floordiv_Ok by lia. cbn [Py.bind]. fold vec.
  rewrite modulo_Ok by lia. cbn [Py.bind]. rewrite Hd.
  cbn [Z.eqb Py.assert_ Py.bind]. fold nt.
  rewrite modulo_Ok by (unfold cute.arch.WARP_SIZE; lia). cbn [Py.bind]. rewrite Hal.
  cbn [Z.eqb Py.assert_ Py.bind]. rewrite Hp. cbn [Py.bind].
  rewrite floordiv_Ok by lia. cbn [Py.bind].
  unfold get_cluster_n. rewrite Hc. cbn [Py.bind].
  rewrite ceil_div_Ok by lia. cbn [Py.bind]. fold nb.
  rewrite floordiv_Ok by lia. cbn [Py.bind]. fold cols.
  unfold cute.make_layout_stride. cbn [cute.all_positive forallb].
  destruct (Z.ltb_spec 0 cols); [| lia].
  destruct (Z.ltb_spec 0 tpr); [| lia].
  destruct (Z.ltb_spec 0 vec); [| lia].
  destruct (Z.ltb_spec 0 nb); [| lia].
  reflexivity.
Qed.

End Planner.

(** ** Thread count policy *)

Lemma get_num_threads_cases (self : Self) :
  _get_num_threads self = 128 \/ _get_num_threads self = 256.
Proof. unfold _get_num_threads. destruct (N self <=? 16384); auto. Qed.

Lemma get_num_threads_aligned (self : Self) :
  _get_num_threads self mod cute.arch.WARP_SIZE = 0.
Proof. destruct (get_num_threads_cases self) as [-> | ->]; reflexivity. Qed.

(** C7: for every positive N, [_get_num_threads] answers 128 when
    N <= 16384 and 256 otherwise; the threshold itself, 16384, still gets
    128 and 16385 is the first row length that gets 256. *)
Theorem get_num_threads_threshold (self : Self) :
  0 < N self ->
  (N self <= 16384 -> _get_num_threads self = 128)
  /\ (16384 < N self -> _get_num_threads self = 256)
  /\ (N self = 16384 -> _get_num_threads self = 128)
  /\ (N self = 16385 -> _get_num_threads self = 256).
Proof.
  intros _. unfold _get_num_threads.
  destruct (Z.leb_spec (N self) 16384); repeat split; intros; try reflexivity; lia.
Qed.

Lemma get_num_threads_threshold_witness :
  _get_num_threads (__init__ cutlass.Float16 16384 1 cutlass.Float32) = 128
  /\ _get_num_threads (__init__ cutlass.Float16 16385 1 cutlass.Float32) = 256.
Proof.
  split.
  - apply (get_num_threads_threshold (__init__ cutlass.Float16 16384 1 cutlass.Float32));
      simpl; lia.
  - apply (get_num_threads_threshold (__init__ cutlass.Float16 16385 1 cutlass.Float32));
      simpl; lia.
Defined.

(** ** The worked example of the planner *)

(** C4: N = 512 in 16-bit elements (vector width 8), 32 threads per row,
    cluster size 1: the thread count is 128, colsPerBlock = 4,
    blocksPerRow = 2, the tile is (4, 512) and the thread-value layout is
    ((4,32),(8,2)) : ((1,32),(4,1024)). *)
Theorem tv_layout_example_512 (stage : Z) (reduction_dtype : cutlass.Numeric) :
  let K := policy 32 1 in
  let self := set_cluster_n (__init__ cutlass.Float16 512 stage reduction_dtype) in
  128 / cutlass.width (dtype self) = 8
  /\ get_num_threads self = 128
  /\ get_num_threads self / 32 = 4
  /\ cute.ceil_div (N self / 8) (32 * 1) = Ok 2
  /\ _get_tv_layout self
     = Ok (cute.Tuple [cute.Int 4; cute.Int 512],
           {| cute.shape :=
                cute.Tuple [cute.Tuple [cute.Int 4; cute.Int 32];
                            cute.Tuple [cute.Int 8; cute.Int 2]];
              cute.stride :=
                cute.Tuple [cute.Tuple [cute.Int 1; cute.Int 32];
                            cute.Tuple [cute.Int 4; cute.Int 1024]] |}).
Proof. repeat split. Qed.

(** ** Configuration errors *)

(** C6, as the code has it: for an element type of at most 128 bits, a row
    length that is not a multiple of the vector width makes the planner
    raise the assertion error whose message carries N and the vector width,
    whatever the kernel, and no layout is returned; N = 510 with 16-bit
    elements (vector width 8) fails so. The converse holds for a valid
    geometry only: there the planner fails exactly when N is not a multiple
    of the vector width. *)
Theorem divisibility_violation {K : Kernel} (self : Self) :
  let w := cutlass.width (dtype self) in
  let vec := 128 / w in
  0 < w <= 128 ->
  (N self mod vec <> 0 ->
   _get_tv_layout self
   = Raise (AssertionError
              (Some ("Input N " ++ Py.str (N self)
                       ++ " is not divisible by vector size " ++ Py.str vec)%string)))
  /\ (forall tpr c,
        valid_geometry self tpr c ->
        (Py.is_ok (_get_tv_layout self) = false <-> N self mod vec <> 0))
  /\ (forall stage rd c,
        _get_tv_layout {| dtype := cutlass.Float16; N := 510; stage := stage;
                          reduction_dtype := rd; cluster_n := c |}
        = Raise (AssertionError
                   (Some "Input N 510 is not divisible by vector size 8"%string))).
Proof.
  intros w vec Hw. split; [| split].
  - intros Hnd. apply get_tv_layout_not_divisible; assumption.
  - intros tpr c Hvalid. split.
    + intros Hfail Hd.
      pose proof (get_tv_layout_Ok self tpr c Hvalid Hd) as Hok.
      cbv zeta in Hok. rewrite Hok in Hfail. discriminate.
    + intros Hnd. rewrite (get_tv_layout_not_divisible self Hw Hnd). reflexivity.
  - intros stage0 rd c. apply get_tv_layout_not_divisible; simpl.
    + lia.
    + discriminate.
Qed.

Lemma divisibility_violation_witness :
  @_get_tv_layout (policy 32 1) (__init__ cutlass.Float16 510 1 cutlass.Float32)
  = Raise (AssertionError
             (Some "Input N 510 is not divisible by vector size 8"%string)).
Proof.
  refine (proj1 (@divisibility_violation (policy 32 1)
                   (__init__ cutlass.Float16 510 1 cutlass.Float32) _) _).
  - simpl. lia.
  - simpl. discriminate.
Defined.

(** C6 as stated fails: N = 512 is a multiple of the vector width 8, yet
    with a thread count of 100, not a multiple of the warp size, planning
    fails with the bare assertion error of the alignment check. *)
Lemma planning_fails_with_divisible_N :
  let K := policy_threads 100 32 1 in
  let self := set_cluster_n (__init__ cutlass.Float16 512 1 cutlass.Float32) in
  N self mod (128 / cutlass.width (dtype self)) = 0
  /\ _get_tv_layout self = Raise (AssertionError None)
  /\ Py.is_ok (_get_tv_layout self) = false.
Proof. repeat split. Qed.

(** C10, as the code has it: when a kernel keeps the base thread-count
    policy, the thread count is 128 or 256, a multiple of the warp size, so
    the alignment assertion never fails: once the kernel has supplied its
    threads-per-row the planner never raises the bare assertion error, and
    the only assertion error it can raise is the divisibility one. *)
Theorem default_thread_count_is_aligned {K : Kernel} (self : Self) (tpr : Z) :
  get_num_threads self = _get_num_threads self ->
  calculate_threads_per_row self = Ok tpr ->
  let vec := 128 / cutlass.width (dtype self) in
  (get_num_threads self = 128 \/ get_num_threads self = 256)
  /\ get_num_threads self mod cute.arch.WARP_SIZE = 0
  /\ _get_tv_layout self <> Raise (AssertionError None)
  /\ (forall msg,
        _get_tv_layout self = Raise (AssertionError msg) ->
        msg = Some (divisibility_message (N self) vec) /\ N self mod vec <> 0).
Proof.
  intros Hdef Hp vec.
  pose proof (get_num_threads_cases self) as Hcases.
  pose proof (get_num_threads_aligned self) as Hal.
  rewrite <- Hdef in Hcases, Hal.
  split; [exact Hcases |]. split; [exact Hal |].
  assert (Hassert : forall msg,
             _get_tv_layout self = Raise (AssertionError msg) ->
             msg = Some (divisibility_message (N self) vec) /\ N self mod vec <> 0).
  { intros msg.
    unfold _get_tv_layout, Py.floordiv, Py.modulo, Py.assert_, cute.ceil_div,
      cute.make_layout_stride, get_cluster_n.
    rewrite Hp, Hal.
    destruct (cutlass.width (dtype self) =? 0); cbn [Py.bind]; [discriminate |].
    fold vec.
    destruct (vec =? 0); cbn [Py.bind]; [discriminate |].
    destruct (Z.eqb_spec (N self mod vec) 0) as [Hd | Hnd]; cbn [Py.bind].
    - change (cute.arch.WARP_SIZE =? 0) with false. cbn [Py.bind Z.eqb].
      destruct (cluster_n self) as [c |]; cbn [Py.bind]; [| discriminate].
      destruct (N self / vec <=? 0); cbn [Py.bind]; [discriminate |].
      destruct (tpr * c =? 0); cbn [Py.bind]; [discriminate |].
      destruct (tpr =? 0); cbn [Py.bind]; [discriminate |].
      match goal with
      | |- context [if ?b then _ else _] => destruct b
      end; cbn [Py.bind]; discriminate.
    - intros [= <-]. auto. }
  split; [| exact Hassert].
  intros Hbare. destruct (Hassert None Hbare) as [Hmsg _]. discriminate Hmsg.
Qed.

Lemma default_thread_count_is_aligned_witness :
  let K := policy 32 1 in
  let self := set_cluster_n (__init__ cutlass.Float16 20000 1 cutlass.Float32) in
  get_num_threads self = 256
  /\ get_num_threads self mod cute.arch.WARP_SIZE = 0
  /\ _get_tv_layout self <> Raise (AssertionError None).
Proof.
  intros K self.
  destruct (@default_thread_count_is_aligned K self 32 eq_refl eq_refl)
    as (_ & Hal & Hne & _).
  split; [reflexivity |]. split; [exact Hal | exact Hne].
Defined.

(** C10 as stated fails: a kernel that keeps the base thread-count policy
    and asks for 256 threads per row plans N = 512, a positive multiple of
    the vector width 8, with 128 threads; cols_per_block is 128 // 256 = 0
    and planning aborts with ValueError from the layout constructor, which
    is neither of the two assertions. *)
Lemma planning_aborts_without_divisibility_error :
  let K := policy 256 1 in
  let self := set_cluster_n (__init__ cutlass.Float16 512 1 cutlass.Float32) in
  0 < N self
  /\ get_num_threads self = _get_num_threads self
  /\ get_num_threads self = 128
  /\ N self mod (128 / cutlass.width (dtype self)) = 0
  /\ _get_tv_layout self = Raise ValueError
  /\ forall msg, _get_tv_layout self <> Raise (AssertionError msg).
Proof.
  intros K self. repeat split. intros msg. discriminate.
Qed.

(** ** Mixed-radix arithmetic behind the thread-value layout *)

Lemma digit_bound a x m n :
  0 <= a < m -> 0 <= x < n -> 0 <= a + m * x < m * n.
Proof. intros Ha Hx. nia. Qed.

Lemma digit_inj a x a' x' m :
  0 <= a < m -> 0 <= a' < m -> a + m * x = a' + m * x' -> a = a' /\ x = x'.
Proof. intros Ha Ha' E. assert (x = x') by nia. subst. lia. Qed.

Lemma digit_split o m n :
  0 < m -> 0 <= o < m * n ->
  0 <= o mod m < m /\ 0 <= o / m < n /\ o = o mod m + m * (o / m).
Proof.
  intros Hm Ho.
  pose proof (Z.mod_pos_bound o m Hm) as Hr.
  pose proof (Z.div_mod o m ltac:(lia)) as E.
  split; [exact Hr |]. split; [| lia].
  split.
  - apply Z.div_pos; lia.
  - apply Z.div_lt_upper_bound; lia.
Qed.

Lemma digit_join a x m :
  0 <= a < m -> (a + m * x) mod m = a /\ (a + m * x) / m = x.
Proof.
  intros Ha. split.
  - symmetry. apply (Z.mod_unique _ _ x); [left; exact Ha | lia].
  - symmetry. apply (Z.div_unique _ _ x a); [left; exact Ha | lia].
Qed.

(** ** The thread-value layout as a function *)

Lemma tv_offset_of cols tpr vec nb tid v b :
  tv_offset (tv_layout_of cols tpr vec nb) tid v b
  = tid mod cols + cols * (v + vec * ((tid / cols) mod tpr + tpr * b)).
Proof. unfold tv_offset, cute.apply. cbn. ring. Qed.

Lemma tv_in_range_of cols tpr vec nb tid v b :
  tv_in_range (tv_layout_of cols tpr vec nb) tid v b = true
  <-> 0 <= tid < cols * tpr /\ 0 <= v < vec /\ 0 <= b < nb.
Proof.
  unfold tv_in_range. cbn.
  rewrite !andb_true_r, !andb_true_iff, !Z.leb_le, !Z.ltb_lt. lia.
Qed.

Lemma tv_size_of cols tpr vec nb :
  cute.size (cute.shape (tv_layout_of cols tpr vec nb)) = cols * (vec * (tpr * nb))
  /\ cute.size (tile_of cols tpr vec nb) = cols * (vec * (tpr * nb)).
Proof. cbn. split; ring. Qed.

Section MixedRadix.

Variables cols tpr vec nb : Z.
Hypothesis Hcols : 0 <= cols.
Hypothesis Htpr : 0 < tpr.
Hypothesis Hvec : 0 < vec.

Let tv := tv_layout_of cols tpr vec nb.
Let cap := cols * (vec * (tpr * nb)).

(** The digits of an in-range triple. *)
Lemma tv_digits tid v b :
  tv_in_range tv tid v b = true ->
  0 < cols /\ 0 <= tid mod cols < cols /\ 0 <= tid / cols < tpr
  /\ 0 <= v < vec /\ 0 <= b < nb
  /\ tv_offset tv tid v b = tid mod cols + cols * (v + vec * (tid / cols + tpr * b)).
Proof.
  intros Hr. apply tv_in_range_of in Hr. destruct Hr as (Ht & Hv & Hb).
  assert (Hc : 0 < cols) by nia.
  destruct (digit_split tid cols tpr Hc Ht) as (Hm & Hd & _).
  repeat (split; [assumption |]).
  unfold tv. rewrite tv_offset_of, (Z.mod_small (tid / cols) tpr) by exact Hd.
  reflexivity.
Qed.

Lemma tv_offset_bound tid v b :
  tv_in_range tv tid v b = true -> 0 <= tv_offset tv tid v b < cap.
Proof.
  intros Hr. destruct (tv_digits tid v b Hr) as (Hc & Hm & Hd & Hv & Hb & ->).
  apply digit_bound; [exact Hm |].
  apply digit_bound; [exact Hv |].
  apply digit_bound; assumption.
Qed.

Lemma tv_offset_inj tid v b tid' v' b' :
  tv_in_range tv tid v b = true -> tv_in_range tv tid' v' b' = true ->
  tv_offset tv tid v b = tv_offset tv tid' v' b' ->
  tid = tid' /\ v = v' /\ b = b'.
Proof.
  intros Hr Hr' E.
  destruct (tv_digits tid v b Hr) as (Hc & Hm & Hd & Hv & Hb & E1).
  destruct (tv_digits tid' v' b' Hr') as (_ & Hm' & Hd' & Hv' & Hb' & E2).
  rewrite E1, E2 in E.
  apply digit_inj in E as [Ec E]; [| assumption ..].
  apply digit_inj in E as [Ev E]; [| assumption ..].
  apply digit_inj in E as [Et Eb]; [| assumption ..].
  split; [| split; assumption].
  rewrite (Z.div_mod tid cols), (Z.div_mod tid' cols) by lia.
  rewrite Ec, Et. reflexivity.
Qed.

Lemma tv_offset_surj o :
  0 <= o < cap ->
  exists tid v b, tv_in_range tv tid v b = true /\ tv_offset tv tid v b = o.
Proof.
  intros Ho. unfold cap in Ho.
  assert (Hc : 0 < cols).
  { assert (cols <> 0) by (intros E; rewrite E in Ho; lia). lia. }
  destruct (digit_split o cols _ Hc Ho) as (Hm & HX & EX).
  destruct (digit_split (o / cols) vec _ Hvec HX) as (Hv & HY & EY).
  destruct (digit_split (o / cols / vec) tpr _ Htpr HY) as (Ht & Hb & Eb).
  set (c := o mod cols) in *. set (v := (o / cols) mod vec) in *.
  set (t := (o / cols / vec) mod tpr) in *. set (b := o / cols / vec / tpr) in *.
  destruct (digit_join c t cols Hm) as (Jm & Jd).
  exists (c + cols * t), v, b. split.
  - apply tv_in_range_of. repeat split; try lia; nia.
  - unfold tv. rewrite tv_offset_of, Jm, Jd, (Z.mod_small t tpr) by exact Ht.
    rewrite <- Eb, <- EY. symmetry. exact EX.
Qed.

Lemma tv_layout_of_bijection : tv_bijection tv cap.
Proof.
  split; [exact tv_offset_bound |]. split; [exact tv_offset_inj | exact tv_offset_surj].
Qed.

(** Rows of the tile that lie within the width are covered. *)
Lemma tv_layout_of_covers n :
  n <= vec * (tpr * nb) -> covers_row tv (tile_of cols tpr vec nb) n.
Proof.
  intros Hn r e Hr He.
  assert (Ho : 0 <= r + cols * e < cap) by (apply digit_bound; lia).
  destruct (tv_offset_surj _ Ho) as (tid & v & b & Hin & Hoff).
  exists tid, v, b. split; [exact Hin |]. split; [exact Hoff |].
  intros tid' v' b' Hin' Hoff'.
  apply (tv_offset_inj tid' v' b' tid v b Hin' Hin). congruence.
Qed.

End MixedRadix.

(** ** Capacity of the tile *)

(** The row width of the tile, counted over the [c] blocks of a cluster,
    is the least multiple of [vec * tpr * c] that holds [n] elements. *)
Lemma row_capacity n vec tpr c :
  0 < vec -> 0 < tpr * c -> n mod vec = 0 ->
  let nb := (n / vec + tpr * c - 1) / (tpr * c) in
  n <= vec * nb * tpr * c < n + vec * tpr * c.
Proof.
  intros Hv Hk Hd nb.
  pose proof (ceil_bounds (n / vec) (tpr * c) Hk) as Hb. fold nb in Hb.
  pose proof (divisible_mul_div n vec ltac:(lia) Hd) as E.
  replace (vec * nb * tpr * c) with (vec * (tpr * c * nb)) by ring.
  replace (n + vec * tpr * c) with (vec * (n / vec) + vec * (tpr * c)) by (rewrite E; ring).
  rewrite <- E at 1. nia.
Qed.

(** C2, as the code has it: for a valid geometry with N a multiple of the
    vector width the planner returns the tile (colsPerBlock, rowWidth) with
    rowWidth = vectorWidth x blocksPerRow x threadsPerRow and blocksPerRow
    = ceil((N / vectorWidth) / (threadsPerRow x clusterSize)), and the row
    width taken over the clusterSize blocks of the cluster is >= N and
    < N + vectorWidth x threadsPerRow x clusterSize. *)
Theorem tile_row_capacity {K : Kernel} (self : Self) (tpr c : Z) :
  let vec := 128 / cutlass.width (dtype self) in
  valid_geometry self tpr c -> N self mod vec = 0 ->
  exists nb tv,
    cute.ceil_div (N self / vec) (tpr * c) = Ok nb
    /\ _get_tv_layout self
       = Ok (cute.Tuple [cute.Int (get_num_threads self / tpr);
                         cute.Int (vec * nb * tpr)], tv)
    /\ N self <= (vec * nb * tpr) * c < N self + vec * tpr * c.
Proof.
  intros vec Hvalid Hd.
  destruct (geometry_facts self tpr c Hvalid Hd) as (Hv & Ha & Hk & Hfit & _).
  fold vec in Hv, Ha, Hfit.
  exists ((N self / vec + tpr * c - 1) / (tpr * c)).
  eexists. split; [apply ceil_div_Ok; lia |]. split.
  - apply (get_tv_layout_Ok self tpr c); assumption.
  - apply row_capacity; assumption.
Qed.

Lemma tile_row_capacity_witness :
  exists nb tv,
    cute.ceil_div (32768 / 8) (256 * 2) = Ok nb
    /\ @_get_tv_layout (policy 256 2)
         (@set_cluster_n (policy 256 2)
            (__init__ cutlass.Float16 32768 1 cutlass.Float32))
       = Ok (cute.Tuple [cute.Int 1; cute.Int (8 * nb * 256)], tv)
    /\ 32768 <= (8 * nb * 256) * 2 < 32768 + 8 * 256 * 2.
Proof.
  apply (@tile_row_capacity (policy 256 2)
           (@set_cluster_n (policy 256 2)
              (__init__ cutlass.Float16 32768 1 cutlass.Float32)) 256 2).
  - geometry.
  - reflexivity.
Defined.

(** C2 as stated fails on the worked example of the planner: with N = 512,
    vector width 8, 32 threads per row and no cluster the capacity
    colsPerBlock x vectorWidth x blocksPerRow x threadsPerRow is
    4 x 8 x 2 x 32 = 2048, which is not below 512 + 8 x 32 x 1 = 768. *)
Lemma tile_capacity_exceeds_one_chunk_of_slack :
  let K := policy 32 1 in
  let self := set_cluster_n (__init__ cutlass.Float16 512 1 cutlass.Float32) in
  exists tiler tv,
    _get_tv_layout self = Ok (tiler, tv)
    /\ N self mod 8 = 0 /\ get_num_threads self mod cute.arch.WARP_SIZE = 0
    /\ cute.size tiler = 4 * 8 * 2 * 32
    /\ ~ (N self <= cute.size tiler < N self + 8 * 32 * 1).
Proof.
  intros K self. eexists. eexists. split; [reflexivity |].
  repeat split. cbn. lia.
Qed.

(** ** The thread-value layout is a bijection *)

(** C1, as the code has it: for a valid geometry with N a multiple of the
    vector width the planner returns a layout that sends the (thread,
    vector-slot, block-chunk) triples one-to-one onto the offsets below the
    capacity colsPerBlock x vectorWidth x blocksPerRow x threadsPerRow of
    the tile; when the cluster size is 1, every element 0..N-1 of every row
    of the tile is reached by exactly one triple. *)
Theorem tv_layout_bijection {K : Kernel} (self : Self) (tpr c : Z) :
  let vec := 128 / cutlass.width (dtype self) in
  valid_geometry self tpr c -> N self mod vec = 0 ->
  exists tiler tv nb,
    _get_tv_layout self = Ok (tiler, tv)
    /\ cute.ceil_div (N self / vec) (tpr * c) = Ok nb
    /\ cute.size tiler = get_num_threads self / tpr * vec * nb * tpr
    /\ cute.size (cute.shape tv) = cute.size tiler
    /\ tv_bijection tv (cute.size tiler)
    /\ (c = 1 -> covers_row tv tiler (N self)).
Proof.
  intros vec Hvalid Hd.
  destruct (geometry_facts self tpr c Hvalid Hd)
    as (Hv & Ha & Hk & Hfit & Hnb & Hcols & _).
  fold vec in Hv, Ha, Hfit, Hnb.
  set (nb := (N self / vec + tpr * c - 1) / (tpr * c)) in *.
  set (cols := get_num_threads self / tpr) in *.
  assert (Htpr : 0 < tpr) by (destruct Hvalid as (_ & _ & _ & _ & ? & _); lia).
  destruct (tv_size_of cols tpr vec nb) as (Es & Et).
  pose proof (tv_layout_of_bijection cols tpr vec nb ltac:(lia) Htpr Hv) as Hbij.
  exists (tile_of cols tpr vec nb), (tv_layout_of cols tpr vec nb), nb.
  split; [apply (get_tv_layout_Ok self tpr c); assumption |].
  split; [apply ceil_div_Ok; lia |].
  rewrite Es, Et. split; [ring |]. split; [reflexivity |]. split; [exact Hbij |].
  intros ->.
  apply tv_layout_of_covers; try lia.
  pose proof (row_capacity (N self) vec tpr 1 Hv Hk Hd) as Hrow.
  cbv zeta in Hrow. fold nb in Hrow. lia.
Qed.

Lemma tv_layout_bijection_witness :
  exists tiler tv nb,
    @_get_tv_layout (policy 32 1)
      (@set_cluster_n (policy 32 1) (__init__ cutlass.Float16 512 1 cutlass.Float32))
    = Ok (tiler, tv)
    /\ cute.ceil_div (512 / 8) (32 * 1) = Ok nb
    /\ cute.size tiler = 128 / 32 * 8 * nb * 32
    /\ cute.size (cute.shape tv) = cute.size tiler
    /\ tv_bijection tv (cute.size tiler)
    /\ covers_row tv tiler 512.
Proof.
  destruct (@tv_layout_bijection (policy 32 1)
              (@set_cluster_n (policy 32 1)
                 (__init__ cutlass.Float16 512 1 cutlass.Float32)) 32 1)
    as (tiler & tv & nb & Hplan & Hnb & Hsize & Hshape & Hbij & Hcov).
  - geometry.
  - reflexivity.
  - exists tiler, tv, nb.
    split; [exact Hplan |]. split; [exact Hnb |]. split; [exact Hsize |].
    split; [exact Hshape |]. split; [exact Hbij |].
    apply Hcov. reflexivity.
Defined.

(** C1 as stated fails once a row is split over a cluster: N = 32768 in
    16-bit elements with 256 threads per row and a cluster of 2 is a valid
    geometry, the planner returns the tile (1, 16384) with the layout
    ((1,256),(8,8)) of capacity 16384, and no triple reaches element 16384
    of the row. *)
Lemma tv_layout_cluster_leaves_row_uncovered :
  let K := policy 256 2 in
  let self := set_cluster_n (__init__ cutlass.Float16 32768 1 cutlass.Float32) in
  valid_geometry self 256 2
  /\ N self mod (128 / cutlass.width (dtype self)) = 0
  /\ exists tv,
      _get_tv_layout self = Ok (cute.Tuple [cute.Int 1; cute.Int 16384], tv)
      /\ 0 <= 16384 < N self
      /\ (forall tid v b,
            tv_in_range tv tid v b = true -> tv_offset tv tid v b <> 0 + 1 * 16384)
      /\ ~ covers_row tv (cute.Tuple [cute.Int 1; cute.Int 16384]) (N self).
Proof.
  intros K self. split; [geometry |]. split; [reflexivity |].
  exists (tv_layout_of 1 256 8 8).
  assert (Hmiss : forall tid v b,
             tv_in_range (tv_layout_of 1 256 8 8) tid v b = true ->
             tv_offset (tv_layout_of 1 256 8 8) tid v b <> 0 + 1 * 16384).
  { intros tid v b Hr.
    pose proof (tv_offset_bound 1 256 8 8 ltac:(lia) tid v b Hr). lia. }
  split; [reflexivity |]. split; [simpl; lia |]. split; [exact Hmiss |].
  intros Hcov. destruct (Hcov 0 16384) as (tid & v & b & Hr & Ho & _).
  - lia.
  - simpl. lia.
  - exact (Hmiss tid v b Hr Ho).
Qed.

(** ** Compact layouts and the size of the tile in bytes *)

Lemma IntTuple_nested_ind (P : cute.IntTuple -> Prop) :
  (forall n, P (cute.Int n)) ->
  (forall ts, Forall P ts -> P (cute.Tuple ts)) ->
  forall t, P t.
Proof.
  intros HInt HTuple. fix IH 1. intros [n | ts].
  - apply HInt.
  - apply HTuple. induction ts as [| t ts IHts]; constructor.
    + apply IH.
    + exact IHts.
Qed.

Lemma size_positive s : cute.all_positive s = true -> 0 < cute.size s.
Proof.
  induction s as [n | ts IH] using IntTuple_nested_ind;
    cbn [cute.all_positive cute.size].
  - intros H. apply Z.ltb_lt. exact H.
  - induction IH as [| t ts Ht _ IHts]; cbn [forallb fold_right]; intros H.
    + lia.
    + apply andb_true_iff in H as [H1 H2].
      specialize (Ht H1). specialize (IHts H2). nia.
Qed.

(** A mode of extent 1 has stride 0, and its only coordinate is 0. *)
Lemma unit_stride (n i base : Z) :
  0 <= i < n -> i * (if n =? 1 then 0 else base) = i * base.
Proof.
  intros Hi. destruct (Z.eqb_spec n 1) as [-> | _]; [| reflexivity].
  assert (i = 0) by lia. subst i. ring.
Qed.

(** The last index of a compact layout lands on the last cell. *)
Lemma last_of_compact s :
  cute.all_positive s = true ->
  forall base,
    cute.crd2idx (cute.Int (cute.size s - 1)) s (cute.compact_col_major s base)
    = base * (cute.size s - 1).
Proof.
  induction s as [n | ts IH] using IntTuple_nested_ind.
  - intros Hpos base. cbn [cute.all_positive] in Hpos. apply Z.ltb_lt in Hpos.
    cbn [cute.crd2idx cute.compact_col_major cute.size].
    rewrite unit_stride by lia. ring.
  - cbn [cute.all_positive]. intros Hpos base.
    cbn [cute.crd2idx cute.compact_col_major cute.size].
    revert base Hpos.
    induction IH as [| t ts Ht _ IHts]; intros base Hpos.
    + cbn. ring.
    + cbn [forallb] in Hpos. apply andb_true_iff in Hpos as [H1 H2].
      cbn [fold_right].
      pose proof (size_positive t H1) as Hst.
      pose proof (size_positive (cute.Tuple ts) H2) as Hsts.
      cbn [cute.size] in Hsts.
      set (P := fold_right (fun t acc => cute.size t * acc) 1 ts) in *.
      assert (Em : (cute.size t * P - 1) mod cute.size t = cute.size t - 1).
      { symmetry. apply (Z.mod_unique _ _ (P - 1)); [left; lia | ring]. }
      assert (Ed : (cute.size t * P - 1) / cute.size t = P - 1).
      { symmetry.
        apply (Z.div_unique _ _ (P - 1) (cute.size t - 1)); [left; lia | ring]. }
      rewrite Em, Ed, (Ht H1 base), (IHts (base * cute.size t) H2). ring.
Qed.

Lemma make_layout_Ok s :
  cute.all_positive s = true ->
  exists l, cute.make_layout s = Ok l /\ cute.shape l = s /\ cute.cosize l = cute.size s.
Proof.
  intros H. unfold cute.make_layout. rewrite H. eexists. split; [reflexivity |].
  split; [reflexivity |].
  unfold cute.cosize, cute.apply. cbn [cute.shape cute.stride].
  rewrite (last_of_compact s H). ring.
Qed.

(** C5: for a tile shape of positive extents, [_smem_size_in_bytes] is the
    byte size of the tile laid out with the element type, which is
    size(tile) x element width / 8, plus stage x num_warps x cluster_n x
    (accumulator width in bytes), plus stage x 8 bytes of barrier words, the
    8 being the width of Int64 whatever the data types are. *)
Theorem smem_size_in_bytes_formula (self : Self) (tiler_mn : cute.IntTuple)
    (num_warps c : Z) :
  cluster_n self = Some c ->
  cute.all_positive tiler_mn = true ->
  cutlass.width cutlass.Int64 / 8 = 8
  /\ exists tile_layout,
      cute.make_layout tiler_mn = Ok tile_layout
      /\ cute.size_in_bytes (dtype self) tile_layout
         = cute.size tiler_mn * cutlass.width (dtype self) / 8
      /\ _smem_size_in_bytes self tiler_mn num_warps
         = Ok (cute.size_in_bytes (dtype self) tile_layout
               + stage self * num_warps * c
                 * (cutlass.width (reduction_dtype self) / 8)
               + stage self * 8).
Proof.
  intros Hc Hpos. split; [reflexivity |].
  destruct (make_layout_Ok tiler_mn Hpos) as (l & Hl & _ & Hco).
  exists l. split; [exact Hl |]. split.
  - unfold cute.size_in_bytes. rewrite Hco. reflexivity.
  - unfold _smem_size_in_bytes, get_cluster_n. rewrite Hl, Hc. reflexivity.
Qed.

Lemma smem_size_in_bytes_formula_witness :
  _smem_size_in_bytes
    (_set_cluster_n (__init__ cutlass.Float16 512 1 cutlass.Float32))
    (cute.Tuple [cute.Int 4; cute.Int 512]) 4
  = Ok (4 * 512 * 16 / 8 + 1 * 4 * 1 * 4 + 1 * 8).
Proof.
  destruct (smem_size_in_bytes_formula
              (_set_cluster_n (__init__ cutlass.Float16 512 1 cutlass.Float32))
              (cute.Tuple [cute.Int 4; cute.Int 512]) 4 1 eq_refl eq_refl)
    as (_ & l & _ & Htile & Hsize).
  rewrite Hsize, Htile. reflexivity.
Defined.

(** ** The reduction buffer layout *)

Lemma reduction_buffer_layout_of (self : Self) (cols tpr vec nb c : Z) :
  let num_warps := cols * tpr / cute.arch.WARP_SIZE in
  let warps_per_row := Z.max (cols / cute.arch.WARP_SIZE) 1 in
  _get_reduction_buffer_layout self (tv_layout_of cols tpr vec nb) c
  = cute.make_ordered_layout
      (cute.Tuple [cute.Int (num_warps / warps_per_row);
                   cute.Tuple [cute.Int warps_per_row; cute.Int c];
                   cute.Int (stage self)])
      [1; 0; 2].
Proof.
  intros num_warps warps_per_row.
  unfold _get_reduction_buffer_layout, cute.size_mode, utils.max_constexpr.
  cbn [tv_layout_of cute.shape cute.getitem nth_error
       Py.bind cute.as_int cute.size fold_right].
  rewrite !floordiv_Ok by (unfold cute.arch.WARP_SIZE; lia). cbn [Py.bind].
  fold warps_per_row.
  rewrite floordiv_Ok by (unfold warps_per_row; lia). cbn [Py.bind].
  replace (cols * (tpr * 1)) with (cols * tpr) by ring. reflexivity.
Qed.

(** Order (1, 0, 2): the (warps-per-row, cluster) mode is innermost with
    strides (1, w), the warp-group mode follows with stride w x c, the stage
    mode is outermost; a mode of extent 1 has stride 0. *)
Lemma ordered_layout_strides (g w c s : Z) :
  0 < g -> 0 < w -> 0 < c -> 0 < s ->
  cute.make_ordered_layout
    (cute.Tuple [cute.Int g; cute.Tuple [cute.Int w; cute.Int c]; cute.Int s])
    [1; 0; 2]
  = Ok (ordered_102 g w c s).
Proof.
  intros Hg Hw Hc Hs.
  unfold cute.make_ordered_layout, cute.stride_base, ordered_102.
  cbn [cute.all_positive forallb].
  destruct (Z.ltb_spec 0 g); [| lia]. destruct (Z.ltb_spec 0 w); [| lia].
  destruct (Z.ltb_spec 0 c); [| lia]. destruct (Z.ltb_spec 0 s); [| lia].
  cbn -[Z.mul Z.eqb]. rewrite !Z.mul_1_r, !Z.mul_1_l. reflexivity.
Qed.

(** With the warps-per-row value [w] the code computes, the buffer has
    warpCount x clusterSize x stageCount slots as soon as [w] divides the
    warp count. *)
Lemma reduction_buffer_size (nw w c s : Z) :
  w <> 0 -> nw mod w = 0 ->
  cute.size (cute.Tuple [cute.Int (nw / w); cute.Tuple [cute.Int w; cute.Int c];
                         cute.Int s])
  = nw * c * s.
Proof.
  intros Hw Hd. cbn [cute.size fold_right].
  pose proof (divisible_mul_div nw w Hw Hd) as E.
  rewrite <- E at 2. ring.
Qed.

(** C3: the code takes warps-per-row from the first extent of the thread
    mode of the layout, which the planner fills with cols_per_block, not
    with threads_per_row. For N = 4096 in 16-bit elements with 64 threads
    per row the planner returns ((2,64),(8,8)); for a positive cluster size
    and stage count the code then lays the buffer out as (4, (1, c), stage),
    where max(1, threadsPerRow / warpSize) = 2 gives (2, (2, c), stage). *)
Theorem reduction_buffer_warps_per_row_reads_cols_per_block (stages c : Z) :
  0 < stages -> 0 < c ->
  let K := policy 64 1 in
  let self := set_cluster_n (__init__ cutlass.Float16 4096 stages cutlass.Float32) in
  exists tiler tv code_layout spec_layout,
    _get_tv_layout self = Ok (tiler, tv)
    /\ cute.shape tv
       = cute.Tuple [cute.Tuple [cute.Int 2; cute.Int 64];
                     cute.Tuple [cute.Int 8; cute.Int 8]]
    /\ _get_reduction_buffer_layout self tv c
       = cute.make_ordered_layout
           (cute.Tuple [cute.Int 4; cute.Tuple [cute.Int 1; cute.Int c];
                        cute.Int stages])
           [1; 0; 2]
    /\ _get_reduction_buffer_layout self tv c = Ok code_layout
    /\ cute.shape code_layout
       = cute.Tuple [cute.Int 4; cute.Tuple [cute.Int 1; cute.Int c];
                     cute.Int stages]
    /\ spec_reduction_buffer_layout (2 * 64) 64 c stages
       = cute.make_ordered_layout
           (cute.Tuple [cute.Int 2; cute.Tuple [cute.Int 2; cute.Int c];
                        cute.Int stages])
           [1; 0; 2]
    /\ spec_reduction_buffer_layout (2 * 64) 64 c stages = Ok spec_layout
    /\ cute.shape spec_layout
       = cute.Tuple [cute.Int 2; cute.Tuple [cute.Int 2; cute.Int c];
                     cute.Int stages]
    /\ _get_reduction_buffer_layout self tv c
       <> spec_reduction_buffer_layout (2 * 64) 64 c stages.
Proof.
  intros Hs Hc K self.
  exists (tile_of 2 64 8 8), (tv_layout_of 2 64 8 8),
    (ordered_102 4 1 c stages), (ordered_102 2 2 c stages).
  split; [reflexivity |]. split; [reflexivity |].
  pose proof (reduction_buffer_layout_of self 2 64 8 8 c) as Hcode.
  cbv zeta in Hcode.
  change (2 * 64 / cute.arch.WARP_SIZE / Z.max (2 / cute.arch.WARP_SIZE) 1)
    with 4 in Hcode.
  change (Z.max (2 / cute.arch.WARP_SIZE) 1) with 1 in Hcode.
  change (stage self) with stages in Hcode.
  assert (Hspec : spec_reduction_buffer_layout (2 * 64) 64 c stages
                  = cute.make_ordered_layout
                      (cute.Tuple [cute.Int 2; cute.Tuple [cute.Int 2; cute.Int c];
                                   cute.Int stages]) [1; 0; 2]) by reflexivity.
  split; [exact Hcode |].
  rewrite Hcode, Hspec.
  rewrite !ordered_layout_strides by lia.
  split; [reflexivity |]. split; [reflexivity |]. split; [reflexivity |].
  split; [reflexivity |]. split; [reflexivity |].
  intros E. injection E as E. discriminate E.
Qed.

Lemma reduction_buffer_warps_per_row_reads_cols_per_block_witness :
  @_get_reduction_buffer_layout
    (@set_cluster_n (policy 64 1) (__init__ cutlass.Float16 4096 2 cutlass.Float32))
    (tv_layout_of 2 64 8 8) 3
  <> spec_reduction_buffer_layout (2 * 64) 64 3 2.
Proof.
  destruct (reduction_buffer_warps_per_row_reads_cols_per_block 2 3)
    as (tiler & tv & cl & sl & Hplan & _ & _ & _ & _ & _ & _ & _ & Hne);
    [lia | lia |].
  injection Hplan as _ <-. exact Hne.
Defined.

(** ** Cluster barriers *)

Lemma tx_bytes_whole (num_warps c width : Z) :
  width mod 8 = 0 -> num_warps * c * width / 8 = num_warps * c * (width / 8).
Proof.
  intros Hw. apply Z.divide_div_mul_exact; [lia |].
  apply Z.mod_divide; [lia | exact Hw].
Qed.

(** Barriers are 8 bytes apart: distinct threads address distinct barriers. *)
Lemma barrier_slots_distinct (mbar : cute.Pointer) (i j : Z) :
  cutlass.width (cute.dtype mbar) = 64 -> i <> j ->
  cute.ptr_add mbar i <> cute.ptr_add mbar j.
Proof.
  intros Hw Hij E. apply (f_equal cute.addr) in E.
  unfold cute.ptr_add in E. cbn [cute.addr] in E. rewrite Hw in E.
  change (64 / 8) with 8 in E. lia.
Qed.

(** C8: with a cluster size above 1 and an accumulator of whole bytes, a
    thread whose index is below the stage count issues, in this order, the
    initialisation of its barrier with arrival count 1, the fence, the
    expected byte count num_warps x cluster_n x (accumulator bytes) for its
    barrier, and the relaxed cluster arrive; every other thread issues the
    fence and then the cluster arrive. *)
Theorem initialize_cluster_sequence (self : Self) (tidx : Z) (mbar : cute.Pointer)
    (num_warps c : Z) :
  cluster_n self = Some c -> 1 < c ->
  cutlass.width (reduction_dtype self) mod 8 = 0 ->
  let slot := cute.ptr_add mbar tidx in
  let bytes := num_warps * c * (cutlass.width (reduction_dtype self) / 8) in
  (tidx < stage self ->
   _initialize_cluster self tidx (Some mbar) num_warps
   = Ok [cute.arch.mbarrier_init_arrive_cnt slot 1;
         cute.arch.mbarrier_init_fence;
         cute.arch.mbarrier_init_tx_bytes slot bytes;
         cute.arch.cluster_arrive_relaxed])
  /\ (stage self <= tidx ->
      _initialize_cluster self tidx (Some mbar) num_warps
      = Ok [cute.arch.mbarrier_init_fence; cute.arch.cluster_arrive_relaxed]).
Proof.
  intros Hc Hgt Hw slot bytes.
  unfold _initialize_cluster, get_cluster_n, cutlass.const_expr.
  rewrite Hc. cbn [Py.bind].
  destruct (Z.ltb_spec 1 c) as [_ | Hle]; [| lia].
  rewrite tx_bytes_whole by exact Hw. fold slot bytes.
  split; intros Ht; destruct (Z.ltb_spec tidx (stage self)); try lia; reflexivity.
Qed.

Lemma initialize_cluster_sequence_witness :
  let self := {| dtype := cutlass.Float16; N := 32768; stage := 2;
                 reduction_dtype := cutlass.Float32; cluster_n := Some 2 |} in
  let mbar := {| cute.dtype := cutlass.Int64; cute.addr := 64 |} in
  _initialize_cluster self 1 (Some mbar) 8
  = Ok [cute.arch.mbarrier_init_arrive_cnt {| cute.dtype := cutlass.Int64; cute.addr := 72 |} 1;
        cute.arch.mbarrier_init_fence;
        cute.arch.mbarrier_init_tx_bytes {| cute.dtype := cutlass.Int64; cute.addr := 72 |} 64;
        cute.arch.cluster_arrive_relaxed]
  /\ _initialize_cluster self 2 (Some mbar) 8
     = Ok [cute.arch.mbarrier_init_fence; cute.arch.cluster_arrive_relaxed].
Proof.
  intros self mbar. split.
  - refine (proj1 (initialize_cluster_sequence self 1 mbar 8 2 eq_refl _ eq_refl) _).
    + lia.
    + simpl. lia.
  - refine (proj2 (initialize_cluster_sequence self 2 mbar 8 2 eq_refl _ eq_refl) _).
    + lia.
    + simpl. lia.
Defined.

(** The warp groups of the buffer never count more warps than the layout
    has: g x w <= warps, with g and w at least 1 when there is a warp. *)
Lemma warp_groups_bound (cols tpr : Z) :
  0 < cols -> 0 < tpr -> 32 <= cols * tpr ->
  let warps := cols * tpr / cute.arch.WARP_SIZE in
  let w := Z.max (cols / cute.arch.WARP_SIZE) 1 in
  1 <= w /\ 1 <= warps / w /\ warps / w * w <= warps.
Proof.
  intros Hcols Htpr H32 warps w. unfold cute.arch.WARP_SIZE in *.
  assert (Hw : 1 <= w) by (unfold w; lia).
  assert (H1 : 1 <= warps) by (apply Z.div_le_lower_bound; lia).
  assert (H2 : cols / 32 <= warps) by (apply Z.div_le_mono; nia).
  assert (Hwle : w <= warps) by (unfold w; lia).
  split; [exact Hw |]. split.
  - apply Z.div_le_lower_bound; lia.
  - rewrite Z.mul_comm. apply Z.mul_div_le. lia.
Qed.

(** The buffer layout of a thread-value layout with at least one warp. *)
Lemma reduction_buffer_layout_Ok (self : Self) (cols tpr vec nb c : Z) :
  0 < c -> 0 < stage self -> 0 < cols -> 0 < tpr -> 32 <= cols * tpr ->
  let w := Z.max (cols / cute.arch.WARP_SIZE) 1 in
  let g := cols * tpr / cute.arch.WARP_SIZE / w in
  _get_reduction_buffer_layout self (tv_layout_of cols tpr vec nb) c
  = Ok (ordered_102 g w c (stage self)).
Proof.
  intros Hc Hs Hcols Htpr H32. cbv zeta.
  pose proof (warp_groups_bound cols tpr Hcols Htpr H32) as Hb. cbv zeta in Hb.
  destruct Hb as (Hw1 & Hg1 & _).
  rewrite reduction_buffer_layout_of. cbv zeta.
  apply ordered_layout_strides; lia.
Qed.

(** How the allocation runs on such a layout. *)
Lemma allocate_runs (self : Self) (smem : cutlass_utils.SmemAllocator)
    (cols tpr vec nb c : Z) :
  cluster_n self = Some c ->
  0 < c -> 0 < stage self -> 0 < cols -> 0 < tpr -> 32 <= cols * tpr ->
  let w := Z.max (cols / cute.arch.WARP_SIZE) 1 in
  let g := cols * tpr / cute.arch.WARP_SIZE / w in
  let l := ordered_102 g w c (stage self) in
  let rd := reduction_dtype self in
  let a := cutlass_utils.align_up (cutlass_utils.next_free smem)
             (Z.max 4 (cutlass.width rd / 8)) in
  let bytes := cute.size_in_bytes rd l in
  let buf := {| cute.element_type := rd;
                cute.iterator := {| cute.dtype := rd; cute.addr := a |};
                cute.layout := l |} in
  let a' := cutlass_utils.align_up (a + bytes) 8 in
  _allocate_reduction_buffer_and_mbar self smem (tv_layout_of cols tpr vec nb)
  = if 1 <? c
    then Ok ((buf, Some {| cute.dtype := cutlass.Int64; cute.addr := a' |}),
             {| cutlass_utils.next_free := a' + 8 * stage self;
                cutlass_utils.regions :=
                  (cutlass_utils.regions smem ++ [(a, bytes)])
                    ++ [(a', 8 * stage self)] |})
    else Ok ((buf, None),
             {| cutlass_utils.next_free := a + bytes;
                cutlass_utils.regions := cutlass_utils.regions smem ++ [(a, bytes)] |}).
Proof.
  intros Hc Hcpos Hs Hcols Htpr H32 w g l rd a bytes buf a'.
  unfold _allocate_reduction_buffer_and_mbar, get_cluster_n, cutlass.const_expr.
  rewrite Hc. cbn [Py.bind].
  rewrite reduction_buffer_layout_Ok by assumption. cbn [Py.bind]. fold w g l.
  destruct (1 <? c); reflexivity.
Qed.

(** C9: with cluster size 1, [_initialize_cluster] issues nothing, whatever
    the thread and the barrier handle, and for a layout with at least one
    warp and a positive stage count [_allocate_reduction_buffer_and_mbar]
    returns the reduction buffer and no barrier handle, having taken one
    region of shared memory, the buffer's; a barrier handle is returned
    exactly when the cluster size is above 1. *)
Theorem no_barriers_without_cluster (self : Self) (smem : cutlass_utils.SmemAllocator)
    (cols tpr vec nb c : Z) :
  cluster_n self = Some c -> 0 < c -> 0 < stage self ->
  0 < cols -> 0 < tpr -> 32 <= cols * tpr ->
  let tv := tv_layout_of cols tpr vec nb in
  (c = 1 ->
   (forall tidx mbar_ptr num_warps,
      _initialize_cluster self tidx mbar_ptr num_warps = Ok [])
   /\ exists buf smem',
       _allocate_reduction_buffer_and_mbar self smem tv = Ok ((buf, None), smem')
       /\ cutlass_utils.regions smem'
          = cutlass_utils.regions smem
              ++ [(cute.addr (cute.iterator buf),
                   cute.size_in_bytes (reduction_dtype self) (cute.layout buf))])
  /\ (exists buf mbar_ptr smem',
        _allocate_reduction_buffer_and_mbar self smem tv = Ok ((buf, mbar_ptr), smem')
        /\ (mbar_ptr <> None <-> 1 < c)).
Proof.
  intros Hc Hcpos Hs Hcols Htpr H32 tv.
  pose proof (allocate_runs self smem cols tpr vec nb c Hc Hcpos Hs Hcols Htpr H32)
    as Hrun.
  cbv zeta in Hrun. fold tv in Hrun.
  split.
  - intros ->. split.
    + intros tidx mbar_ptr num_warps.
      unfold _initialize_cluster, get_cluster_n. rewrite Hc. reflexivity.
    + do 2 eexists. split; [exact Hrun |]. reflexivity.
  - destruct (Z.ltb_spec 1 c) as [Hgt | Hle].
    + do 3 eexists. split; [exact Hrun |].
      split; [intros _; exact Hgt | intros _; discriminate].
    + do 3 eexists. split; [exact Hrun |].
      split; [intros Hne; contradiction Hne; reflexivity | lia].
Qed.

Lemma no_barriers_without_cluster_witness :
  let self := _set_cluster_n (__init__ cutlass.Float16 512 2 cutlass.Float32) in
  let smem := {| cutlass_utils.next_free := 0; cutlass_utils.regions := [] |} in
  (forall tidx mbar_ptr num_warps,
     _initialize_cluster self tidx mbar_ptr num_warps = Ok [])
  /\ exists buf smem',
      _allocate_reduction_buffer_and_mbar self smem (tv_layout_of 4 32 8 2)
      = Ok ((buf, None), smem')
      /\ List.length (cutlass_utils.regions smem') = 1%nat.
Proof.
  intros self smem.
  destruct (no_barriers_without_cluster self smem 4 32 8 2 1 eq_refl)
    as (Hone & _); try lia.
  { cbn. lia. }
  destruct (Hone eq_refl) as (Hnop & buf & smem' & Hrun & Hreg).
  split; [exact Hnop |]. exists buf, smem'. split; [exact Hrun |].
  rewrite Hreg. reflexivity.
Defined.

(** * Further properties of the code *)

(** ** When the planner returns, and what *)

(** X1: for a valid geometry the planner returns exactly when N is a
    multiple of the vector size, and what it returns is the tile
    (cols_per_block, vecsize x num_blocks_N x threads_per_row) with the
    layout ((cols_per_block, threads_per_row), (vecsize, num_blocks_N)) and
    the strides of the source. *)
Theorem planner_returns_iff {K : Kernel} (self : Self) (tpr c : Z)
    (r : cute.IntTuple * cute.Layout) :
  let vec := 128 / cutlass.width (dtype self) in
  let nb := (N self / vec + tpr * c - 1) / (tpr * c) in
  let cols := get_num_threads self / tpr in
  valid_geometry self tpr c ->
  (_get_tv_layout self = Ok r
   <-> N self mod vec = 0
       /\ r = (tile_of cols tpr vec nb, tv_layout_of cols tpr vec nb)).
Proof.
  intros vec nb cols Hvalid. split.
  - intros Hplan.
    destruct (Z.eq_dec (N self mod vec) 0) as [Hd | Hnd].
    + pose proof (get_tv_layout_Ok self tpr c Hvalid Hd) as Hok.
      cbv zeta in Hok. fold vec nb cols in Hok.
      rewrite Hok in Hplan. injection Hplan as <-. auto.
    + destruct Hvalid as (Hw & _).
      rewrite (get_tv_layout_not_divisible self Hw Hnd) in Hplan. discriminate.
  - intros (Hd & ->). apply (get_tv_layout_Ok self tpr c); assumption.
Qed.

Lemma planner_returns_iff_witness :
  @_get_tv_layout (policy 64 1)
    (@set_cluster_n (policy 64 1) (__init__ cutlass.Float16 4096 1 cutlass.Float32))
  = Ok (tile_of 2 64 8 8, tv_layout_of 2 64 8 8).
Proof.
  refine (proj2 (@planner_returns_iff (policy 64 1)
                   (@set_cluster_n (policy 64 1)
                      (__init__ cutlass.Float16 4096 1 cutlass.Float32))
                   64 1 _ _) _).
  - geometry.
  - split; reflexivity.
Defined.

(** X2: a thread count that is not a multiple of the warp size makes the
    planner raise the bare assertion error as soon as N has passed the
    divisibility check, before the kernel is asked for its threads-per-row
    and before cluster_n is read. *)
Theorem alignment_violation {K : Kernel} (self : Self) :
  let vec := 128 / cutlass.width (dtype self) in
  0 < cutlass.width (dtype self) <= 128 ->
  N self mod vec = 0 ->
  get_num_threads self mod cute.arch.WARP_SIZE <> 0 ->
  _get_tv_layout self = Raise (AssertionError None).
Proof.
  intros vec Hw Hd Hna. apply get_tv_layout_misaligned; assumption.
Qed.

Lemma alignment_violation_witness :
  @_get_tv_layout (policy_threads 100 32 1)
    (__init__ cutlass.Float16 512 1 cutlass.Float32)
  = Raise (AssertionError None).
Proof.
  apply (@alignment_violation (policy_threads 100 32 1)
           (__init__ cutlass.Float16 512 1 cutlass.Float32)).
  - cbn. lia.
  - reflexivity.
  - cbn. discriminate.
Defined.

(** X3: on the base class itself the planner never returns a layout: for
    an element type of at most 128 bits it raises the divisibility error
    when N is not a multiple of the vector size, and NotImplementedError
    from [_calculate_threads_per_row] otherwise, whether or not cluster_n
    has been set. *)
Theorem base_class_planner_raises (self : Self) :
  let vec := 128 / cutlass.width (dtype self) in
  0 < cutlass.width (dtype self) <= 128 ->
  (N self mod vec <> 0 ->
   @_get_tv_layout ReductionBase self
   = Raise (AssertionError (Some (divisibility_message (N self) vec))))
  /\ (N self mod vec = 0 ->
      @_get_tv_layout ReductionBase self = Raise NotImplementedError).
Proof.
  intros vec Hw. split.
  - intros Hnd. apply (@get_tv_layout_not_divisible ReductionBase); assumption.
  - intros Hd. pose proof (vecsize_pos _ Hw) as Hv. fold vec in Hv.
    unfold _get_tv_layout.
    rewrite floordiv_Ok by lia. cbn [Py.bind]. fold vec.
    rewrite modulo_Ok by lia. cbn [Py.bind]. rewrite Hd.
    cbn [Z.eqb Py.assert_ Py.bind get_num_threads ReductionBase].
    rewrite modulo_Ok by (unfold cute.arch.WARP_SIZE; lia). cbn [Py.bind].
    rewrite get_num_threads_aligned. reflexivity.
Qed.

Lemma base_class_planner_raises_witness :
  @_get_tv_layout ReductionBase
    (_set_cluster_n (__init__ cutlass.Float16 512 1 cutlass.Float32))
  = Raise NotImplementedError.
Proof.
  refine (proj2 (base_class_planner_raises
                   (_set_cluster_n (__init__ cutlass.Float16 512 1 cutlass.Float32))
                   _) _).
  - cbn. lia.
  - reflexivity.
Defined.



(** ** Threads, rows and columns of the tile *)

(** X5: for a valid geometry with N a multiple of the vector size, the
    thread mode of the returned layout holds cols_per_block x
    threads_per_row threads, which is the thread count rounded down to a
    multiple of threads_per_row: never more than the thread count, less
    than threads_per_row below it, and equal to it exactly when
    threads_per_row divides the thread count. *)
Theorem thread_mode_within_thread_count {K : Kernel} (self : Self) (tpr c : Z) :
  let vec := 128 / cutlass.width (dtype self) in
  let nt := get_num_threads self in
  valid_geometry self tpr c -> N self mod vec = 0 ->
  exists tiler tv threads,
    _get_tv_layout self = Ok (tiler, tv)
    /\ cute.size_mode tv 0 = Ok threads
    /\ threads = nt / tpr * tpr
    /\ nt - tpr < threads <= nt
    /\ (threads = nt <-> nt mod tpr = 0).
Proof.
  intros vec nt Hvalid Hd.
  pose proof (get_tv_layout_Ok self tpr c Hvalid Hd) as Hok.
  cbv zeta in Hok. fold vec nt in Hok.
  assert (Htpr : 0 < tpr) by (destruct Hvalid as (_ & _ & _ & _ & ? & _); lia).
  eexists. eexists. exists (nt / tpr * tpr).
  split; [exact Hok |].
  pose proof (Z.div_mod nt tpr ltac:(lia)) as E.
  pose proof (Z.mod_pos_bound nt tpr Htpr) as Hr.
  split; [| split; [reflexivity | split; [lia | lia]]].
  unfold cute.size_mode. cbn. f_equal. ring.
Qed.

Lemma thread_mode_within_thread_count_witness :
  exists tiler tv threads,
    @_get_tv_layout (policy 48 1)
      (@set_cluster_n (policy 48 1) (__init__ cutlass.Float16 512 1 cutlass.Float32))
    = Ok (tiler, tv)
    /\ cute.size_mode tv 0 = Ok threads
    /\ threads = 128 / 48 * 48
    /\ 128 - 48 < threads <= 128
    /\ (threads = 128 <-> 128 mod 48 = 0).
Proof.
  apply (@thread_mode_within_thread_count (policy 48 1)
           (@set_cluster_n (policy 48 1)
              (__init__ cutlass.Float16 512 1 cutlass.Float32)) 48 1).
  - geometry.
  - reflexivity.
Defined.

Lemma tv_offset_in_tile cols tpr vec nb tid v b :
  0 < tpr ->
  tv_in_range (tv_layout_of cols tpr vec nb) tid v b = true ->
  let row := tid mod cols in
  let col := vec * (tid / cols + tpr * b) + v in
  cute.in_domain (cute.Tuple [cute.Int row; cute.Int col]) (tile_of cols tpr vec nb)
  = true
  /\ tv_offset (tv_layout_of cols tpr vec nb) tid v b
     = cute.crd2idx (cute.Tuple [cute.Int row; cute.Int col])
         (tile_of cols tpr vec nb)
         (cute.compact_col_major (tile_of cols tpr vec nb) 1).
Proof.
  intros Htpr Hr row col.
  destruct (tv_digits cols tpr vec nb Htpr tid v b Hr)
    as (Hc & Hm & Hd & Hv & Hb & E).
  assert (Hcol : 0 <= v + vec * (tid / cols + tpr * b) < vec * (tpr * nb)).
  { apply digit_bound; [exact Hv |]. apply digit_bound; assumption. }
  assert (Hcol' : 0 <= col < vec * nb * tpr).
  { unfold col. replace (vec * nb * tpr) with (vec * (tpr * nb)) by ring. lia. }
  split.
  - cbn. rewrite !andb_true_r, !andb_true_iff, !Z.leb_le, !Z.ltb_lt.
    fold row col. split; [unfold row; lia |]. split; lia.
  - rewrite E. cbn -[Z.mul Z.eqb]. fold row col.
    rewrite (unit_stride cols row 1) by (unfold row; lia).
    rewrite (unit_stride (vec * nb * tpr) col (1 * cols)) by exact Hcol'.
    unfold row, col. ring.
Qed.

(** X6: for a valid geometry with N a multiple of the vector size, the
    returned layout walks the tile row by row, as the comment in the
    planner draws it: thread [tid] works on row [tid mod cols_per_block]
    of the tile, and slot [v] of its chunk [b] is column [vecsize x
    (tid / cols_per_block + threads_per_row x b) + v], so the vecsize slots
    of one chunk are vecsize neighbouring columns; the offset is that of
    (row, column) in the column-major layout of the tile. *)
Theorem tv_layout_walks_tile_rows {K : Kernel} (self : Self) (tpr c : Z) :
  let vec := 128 / cutlass.width (dtype self) in
  let cols := get_num_threads self / tpr in
  valid_geometry self tpr c -> N self mod vec = 0 ->
  exists tiler tv tile_layout,
    _get_tv_layout self = Ok (tiler, tv)
    /\ cute.make_layout tiler = Ok tile_layout
    /\ forall tid v b,
         tv_in_range tv tid v b = true ->
         let row := tid mod cols in
         let col := vec * (tid / cols + tpr * b) + v in
         cute.in_domain (cute.Tuple [cute.Int row; cute.Int col]) tiler = true
         /\ tv_offset tv tid v b
            = cute.apply tile_layout (cute.Tuple [cute.Int row; cute.Int col]).
Proof.
  intros vec cols Hvalid Hd.
  pose proof (get_tv_layout_Ok self tpr c Hvalid Hd) as Hok.
  cbv zeta in Hok. fold vec cols in Hok.
  destruct (geometry_facts self tpr c Hvalid Hd)
    as (Hv & _ & _ & _ & Hnb & Hcols & _).
  fold vec in Hv, Hnb. fold cols in Hcols.
  set (nb := (N self / vec + tpr * c - 1) / (tpr * c)) in *.
  assert (Htpr : 0 < tpr) by (destruct Hvalid as (_ & _ & _ & _ & ? & _); lia).
  assert (Hpos : cute.all_positive (tile_of cols tpr vec nb) = true).
  { cbn. rewrite andb_true_r, andb_true_iff, !Z.ltb_lt. split; [lia | nia]. }
  do 2 eexists. exists {| cute.shape := tile_of cols tpr vec nb;
                          cute.stride := cute.compact_col_major
                                           (tile_of cols tpr vec nb) 1 |}.
  split; [exact Hok |].
  split; [unfold cute.make_layout; rewrite Hpos; reflexivity |].
  intros tid v b Hr. apply tv_offset_in_tile; assumption.
Qed.

Lemma tv_layout_walks_tile_rows_witness :
  exists tiler tv tile_layout,
    @_get_tv_layout (policy 32 1)
      (@set_cluster_n (policy 32 1) (__init__ cutlass.Float16 512 1 cutlass.Float32))
    = Ok (tiler, tv)
    /\ cute.make_layout tiler = Ok tile_layout
    /\ forall tid v b,
         tv_in_range tv tid v b = true ->
         let row := tid mod (128 / 32) in
         let col := 8 * (tid / (128 / 32) + 32 * b) + v in
         cute.in_domain (cute.Tuple [cute.Int row; cute.Int col]) tiler = true
         /\ tv_offset tv tid v b
            = cute.apply tile_layout (cute.Tuple [cute.Int row; cute.Int col]).
Proof.
  apply (@tv_layout_walks_tile_rows (policy 32 1)
           (@set_cluster_n (policy 32 1)
              (__init__ cutlass.Float16 512 1 cutlass.Float32)) 32 1).
  - geometry.
  - reflexivity.
Defined.

Lemma ceil_monotone a a' k :
  0 < k -> a <= a' -> (a + k - 1) / k <= (a' + k - 1) / k.
Proof. intros Hk Ha. apply Z.div_le_mono; lia. Qed.

(** X7: for a fixed element type, threads-per-row and cluster size, and
    two valid geometries whose row lengths are multiples of the vector
    size, the longer row never gets the narrower tile: the row width
    vecsize x num_blocks_N x threads_per_row of the returned tile does not
    decrease with N. *)
Theorem tile_row_width_monotone {K : Kernel} (self self' : Self) (tpr c : Z) :
  let vec := 128 / cutlass.width (dtype self) in
  dtype self' = dtype self ->
  valid_geometry self tpr c -> valid_geometry self' tpr c ->
  N self mod vec = 0 -> N self' mod vec = 0 ->
  N self <= N self' ->
  exists cols tv width cols' tv' width',
    _get_tv_layout self = Ok (cute.Tuple [cute.Int cols; cute.Int width], tv)
    /\ _get_tv_layout self' = Ok (cute.Tuple [cute.Int cols'; cute.Int width'], tv')
    /\ width <= width'.
Proof.
  intros vec Hdt Hvalid Hvalid' Hd Hd' Hle.
  destruct (geometry_facts self tpr c Hvalid Hd) as (Hv & _ & Hk & _).
  fold vec in Hv.
  pose proof (get_tv_layout_Ok self tpr c Hvalid Hd) as Hok.
  assert (Hd'' : N self' mod (128 / cutlass.width (dtype self')) = 0)
    by (rewrite Hdt; exact Hd').
  pose proof (get_tv_layout_Ok self' tpr c Hvalid' Hd'') as Hok'.
  cbv zeta in Hok, Hok'. rewrite Hdt in Hok'. fold vec in Hok, Hok'.
  unfold tile_of in Hok, Hok'.
  assert (Htpr : 0 < tpr) by (destruct Hvalid as (_ & _ & _ & _ & ? & _); lia).
  do 6 eexists. split; [exact Hok |]. split; [exact Hok' |].
  assert (Hdiv : N self / vec <= N self' / vec) by (apply Z.div_le_mono; lia).
  pose proof (ceil_monotone _ _ (tpr * c) Hk Hdiv) as Hnb.
  apply Z.mul_le_mono_nonneg_r; [lia |].
  apply Z.mul_le_mono_nonneg_l; [lia | exact Hnb].
Qed.

Lemma tile_row_width_monotone_witness :
  exists cols tv width cols' tv' width',
    @_get_tv_layout (policy 32 1)
      (@set_cluster_n (policy 32 1) (__init__ cutlass.Float16 512 1 cutlass.Float32))
    = Ok (cute.Tuple [cute.Int cols; cute.Int width], tv)
    /\ @_get_tv_layout (policy 32 1)
         (@set_cluster_n (policy 32 1)
            (__init__ cutlass.Float16 520 1 cutlass.Float32))
       = Ok (cute.Tuple [cute.Int cols'; cute.Int width'], tv')
    /\ width <= width'.
Proof.
  apply (@tile_row_width_monotone (policy 32 1)
           (@set_cluster_n (policy 32 1)
              (__init__ cutlass.Float16 512 1 cutlass.Float32))
           (@set_cluster_n (policy 32 1)
              (__init__ cutlass.Float16 520 1 cutlass.Float32)) 32 1).
  - reflexivity.
  - geometry.
  - geometry.
  - reflexivity.
  - reflexivity.
  - cbn. lia.
Defined.

(** ** The size computation *)

(** X8: for a tile of positive extents and a warp count, a cluster size
    and an accumulator width that are not negative, one more pipeline stage
    costs exactly num_warps x cluster_n x (accumulator bytes) + 8 bytes, so
    the size grows strictly with the stage count; the tile term does not
    depend on the stage count. *)
Theorem smem_size_grows_with_stage (self self' : Self) (tiler_mn : cute.IntTuple)
    (num_warps c : Z) :
  cute.all_positive tiler_mn = true ->
  dtype self' = dtype self -> reduction_dtype self' = reduction_dtype self ->
  cluster_n self = Some c -> cluster_n self' = Some c ->
  0 <= num_warps -> 0 <= c -> 0 <= cutlass.width (reduction_dtype self) ->
  stage self < stage self' ->
  exists bytes bytes',
    _smem_size_in_bytes self tiler_mn num_warps = Ok bytes
    /\ _smem_size_in_bytes self' tiler_mn num_warps = Ok bytes'
    /\ bytes' - bytes
       = (stage self' - stage self)
         * (num_warps * c * (cutlass.width (reduction_dtype self) / 8) + 8)
    /\ bytes < bytes'.
Proof.
  intros Hpos Hdt Hrd Hc Hc' Hnw Hc0 Hrw Hst.
  destruct (make_layout_Ok tiler_mn Hpos) as (l & Hl & _).
  unfold _smem_size_in_bytes, get_cluster_n. rewrite Hl, Hc, Hc', Hdt, Hrd.
  cbn [Py.bind]. change (cutlass.width cutlass.Int64 / 8) with 8.
  do 2 eexists. split; [reflexivity |]. split; [reflexivity |].
  assert (0 <= cutlass.width (reduction_dtype self) / 8) by (apply Z.div_pos; lia).
  set (rb := cutlass.width (reduction_dtype self) / 8) in *.
  split; [ring |].
  assert (0 <= num_warps * c * rb) by nia. nia.
Qed.

Lemma smem_size_grows_with_stage_witness :
  exists bytes bytes',
    _smem_size_in_bytes
      (_set_cluster_n (__init__ cutlass.Float16 512 1 cutlass.Float32))
      (cute.Tuple [cute.Int 4; cute.Int 512]) 4 = Ok bytes
    /\ _smem_size_in_bytes
         (_set_cluster_n (__init__ cutlass.Float16 512 2 cutlass.Float32))
         (cute.Tuple [cute.Int 4; cute.Int 512]) 4 = Ok bytes'
    /\ bytes' - bytes = (2 - 1) * (4 * 1 * (32 / 8) + 8)
    /\ bytes < bytes'.
Proof.
  apply (smem_size_grows_with_stage
           (_set_cluster_n (__init__ cutlass.Float16 512 1 cutlass.Float32))
           (_set_cluster_n (__init__ cutlass.Float16 512 2 cutlass.Float32))
           (cute.Tuple [cute.Int 4; cute.Int 512]) 4 1);
    try reflexivity; cbn; lia.
Defined.

(** ** The reduction buffer as a function of its coordinates *)

Lemma rb_offset_of (g w c s i j k st : Z) :
  0 <= i < g -> 0 <= j < w -> 0 <= k < c -> 0 <= st < s ->
  cute.apply (ordered_102 g w c s) (rb_coord i j k st)
  = (j + w * k) + (w * c) * (i + g * st).
Proof.
  intros Hi Hj Hk Hst. unfold cute.apply. cbn -[Z.mul Z.eqb].
  rewrite (unit_stride g i), (unit_stride w j), (unit_stride c k),
    (unit_stride s st) by assumption.
  ring.
Qed.

Lemma rb_in_range_of (g w c s i j k st : Z) :
  cute.in_domain (rb_coord i j k st) (cute.shape (ordered_102 g w c s)) = true
  <-> 0 <= i < g /\ 0 <= j < w /\ 0 <= k < c /\ 0 <= st < s.
Proof.
  cbn. rewrite !andb_true_r, !andb_true_iff, !Z.leb_le, !Z.ltb_lt. lia.
Qed.

Lemma rb_stage_slab (g w c i j k st : Z) :
  0 <= i < g -> 0 <= j < w -> 0 <= k < c ->
  st * (g * (w * c)) <= (j + w * k) + (w * c) * (i + g * st)
  < (st + 1) * (g * (w * c)).
Proof.
  intros Hi Hj Hk.
  pose proof (digit_bound j k w c Hj Hk) as Hjk.
  pose proof (digit_bound (j + w * k) i (w * c) g Hjk Hi) as Hijk.
  lia.
Qed.

Lemma rb_offset_inj (g w c i j k st i' j' k' st' : Z) :
  0 <= i < g -> 0 <= j < w -> 0 <= k < c ->
  0 <= i' < g -> 0 <= j' < w -> 0 <= k' < c ->
  (j + w * k) + (w * c) * (i + g * st) = (j' + w * k') + (w * c) * (i' + g * st') ->
  i = i' /\ j = j' /\ k = k' /\ st = st'.
Proof.
  intros Hi Hj Hk Hi' Hj' Hk' E.
  pose proof (digit_bound j k w c Hj Hk) as Hjk.
  pose proof (digit_bound j' k' w c Hj' Hk') as Hjk'.
  apply digit_inj in E as [Ejk E]; [| assumption ..].
  apply digit_inj in E as [Ei Est]; [| assumption ..].
  apply digit_inj in Ejk as [Ej Ek]; [| assumption ..].
  auto.
Qed.

(** X9: for a valid geometry with N a multiple of the vector size, a
    thread mode of at least one warp, a positive stage count and a positive
    cluster size, the buffer layout computed from the layout the planner
    returned keeps the pipeline stages apart: the slot of (warp group, (warp
    in row, cluster slot), stage) lies in the stage's own slab of g x w x
    cluster_n consecutive slots, and distinct coordinates have distinct
    slots. *)
Theorem reduction_buffer_stages_disjoint {K : Kernel} (self : Self) (tpr c cn : Z) :
  let vec := 128 / cutlass.width (dtype self) in
  valid_geometry self tpr c -> N self mod vec = 0 ->
  32 <= get_num_threads self / tpr * tpr ->
  0 < stage self -> 0 < cn ->
  exists tiler tv l g w,
    _get_tv_layout self = Ok (tiler, tv)
    /\ _get_reduction_buffer_layout self tv cn = Ok l
    /\ cute.shape l
       = cute.Tuple [cute.Int g; cute.Tuple [cute.Int w; cute.Int cn];
                     cute.Int (stage self)]
    /\ (forall i j k st,
          cute.in_domain (rb_coord i j k st) (cute.shape l) = true ->
          st * (g * (w * cn)) <= cute.apply l (rb_coord i j k st)
          < (st + 1) * (g * (w * cn)))
    /\ (forall i j k st i' j' k' st',
          cute.in_domain (rb_coord i j k st) (cute.shape l) = true ->
          cute.in_domain (rb_coord i' j' k' st') (cute.shape l) = true ->
          cute.apply l (rb_coord i j k st) = cute.apply l (rb_coord i' j' k' st') ->
          i = i' /\ j = j' /\ k = k' /\ st = st').
Proof.
  intros vec Hvalid Hd H32 Hs Hcn.
  pose proof (get_tv_layout_Ok self tpr c Hvalid Hd) as Hok.
  cbv zeta in Hok. fold vec in Hok.
  destruct (geometry_facts self tpr c Hvalid Hd) as (_ & _ & _ & _ & _ & Hcols & _).
  assert (Htpr : 0 < tpr) by (destruct Hvalid as (_ & _ & _ & _ & ? & _); lia).
  set (cols := get_num_threads self / tpr) in *.
  set (nb := (N self / vec + tpr * c - 1) / (tpr * c)) in *.
  pose proof (reduction_buffer_layout_Ok self cols tpr vec nb cn Hcn Hs
                ltac:(lia) Htpr H32) as Hl.
  cbv zeta in Hl.
  set (w := Z.max (cols / cute.arch.WARP_SIZE) 1) in *.
  set (g := cols * tpr / cute.arch.WARP_SIZE / w) in *.
  do 3 eexists. exists g, w.
  split; [exact Hok |]. split; [exact Hl |].
  split; [reflexivity |]. split.
  - intros i j k st Hr.
    apply rb_in_range_of in Hr. destruct Hr as (Hi & Hj & Hk & Hst).
    rewrite rb_offset_of by assumption. apply rb_stage_slab; assumption.
  - intros i j k st i' j' k' st' Hr Hr' E.
    apply rb_in_range_of in Hr. destruct Hr as (Hi & Hj & Hk & Hst).
    apply rb_in_range_of in Hr'. destruct Hr' as (Hi' & Hj' & Hk' & Hst').
    rewrite !rb_offset_of in E by assumption.
    apply (rb_offset_inj g w cn); assumption.
Qed.

Lemma reduction_buffer_stages_disjoint_witness :
  exists tiler tv l g w,
    @_get_tv_layout (policy 32 2)
      (@set_cluster_n (policy 32 2) (__init__ cutlass.Float16 512 3 cutlass.Float32))
    = Ok (tiler, tv)
    /\ _get_reduction_buffer_layout
         (@set_cluster_n (policy 32 2) (__init__ cutlass.Float16 512 3 cutlass.Float32))
         tv 2 = Ok l
    /\ cute.shape l
       = cute.Tuple [cute.Int g; cute.Tuple [cute.Int w; cute.Int 2]; cute.Int 3]
    /\ (forall i j k st,
          cute.in_domain (rb_coord i j k st) (cute.shape l) = true ->
          st * (g * (w * 2)) <= cute.apply l (rb_coord i j k st)
          < (st + 1) * (g * (w * 2)))
    /\ (forall i j k st i' j' k' st',
          cute.in_domain (rb_coord i j k st) (cute.shape l) = true ->
          cute.in_domain (rb_coord i' j' k' st') (cute.shape l) = true ->
          cute.apply l (rb_coord i j k st) = cute.apply l (rb_coord i' j' k' st') ->
          i = i' /\ j = j' /\ k = k' /\ st = st').
Proof.
  apply (@reduction_buffer_stages_disjoint (policy 32 2)
           (@set_cluster_n (policy 32 2)
              (__init__ cutlass.Float16 512 3 cutlass.Float32)) 32 2 2).
  - geometry.
  - reflexivity.
  - cbn. lia.
  - cbn. lia.
  - lia.
Defined.

Lemma divisors_of_256 (t : Z) :
  0 < t -> 256 mod t = 0 -> In t [1; 2; 4; 8; 16; 32; 64; 128; 256].
Proof.
  intros Ht Hm.
  assert (Hle : t <= 256).
  { apply Z.divide_pos_le; [lia |]. apply Z.mod_divide; [lia | exact Hm]. }
  assert (Hall : forallb
                   (fun n => let z := Z.of_nat n in
                             if 256 mod z =? 0
                             then existsb (Z.eqb z) [1; 2; 4; 8; 16; 32; 64; 128; 256]
                             else true)
                   (seq 1 256) = true) by (vm_compute; reflexivity).
  rewrite forallb_forall in Hall.
  specialize (Hall (Z.to_nat t)).
  rewrite Z2Nat.id in Hall by lia. cbv zeta in Hall.
  rewrite Hm in Hall. cbn [Z.eqb] in Hall.
  assert (Hin : In (Z.to_nat t) (seq 1 256)) by (apply in_seq; lia).
  specialize (Hall Hin). apply existsb_exists in Hall as (x & Hx & E).
  apply Z.eqb_eq in E. subst x. exact Hx.
Qed.

(** With the base thread count and a threads-per-row that divides it, the
    warps-per-row value the code computes divides the warp count. *)
Lemma default_warps_per_row_divides (nt tpr : Z) :
  nt = 128 \/ nt = 256 -> 0 < tpr -> nt mod tpr = 0 ->
  (nt / tpr * tpr / cute.arch.WARP_SIZE)
    mod Z.max (nt / tpr / cute.arch.WARP_SIZE) 1 = 0
  /\ nt / tpr * tpr / cute.arch.WARP_SIZE = nt / cute.arch.WARP_SIZE.
Proof.
  intros Hnt Htpr Hm.
  assert (H256 : 256 mod tpr = 0).
  { destruct Hnt as [-> | ->]; [| exact Hm].
    apply Z.mod_divide; [lia |]. apply Z.mod_divide in Hm; [| lia].
    apply (Z.divide_trans _ 128); [exact Hm | exists 2; reflexivity]. }
  pose proof (divisors_of_256 tpr Htpr H256) as Hin.
  cbn [In] in Hin.
  destruct Hnt as [-> | ->];
    repeat (destruct Hin as [<- | Hin]; [first [split; reflexivity | discriminate Hm] |]);
    contradiction.
Qed.

(** X10: for a valid geometry with N a multiple of the vector size, the
    base thread count (128 or 256), a threads-per-row that divides it, a
    positive stage count and a positive cluster size, the buffer layout
    computed from the planner's layout has exactly (thread count / warp
    size) x cluster_n x stage slots: one per warp, replicated per cluster
    member and per stage. *)
Theorem reduction_buffer_slot_count {K : Kernel} (self : Self) (tpr c cn : Z) :
  let vec := 128 / cutlass.width (dtype self) in
  let nt := get_num_threads self in
  valid_geometry self tpr c -> N self mod vec = 0 ->
  nt = _get_num_threads self -> nt mod tpr = 0 ->
  0 < stage self -> 0 < cn ->
  exists tiler tv l,
    _get_tv_layout self = Ok (tiler, tv)
    /\ _get_reduction_buffer_layout self tv cn = Ok l
    /\ cute.size (cute.shape l) = nt / cute.arch.WARP_SIZE * cn * stage self.
Proof.
  intros vec nt Hvalid Hd Hdef Hdiv Hs Hcn.
  assert (Hcases : nt = 128 \/ nt = 256)
    by (rewrite Hdef; apply get_num_threads_cases).
  pose proof (get_tv_layout_Ok self tpr c Hvalid Hd) as Hok.
  cbv zeta in Hok. fold vec nt in Hok.
  destruct (geometry_facts self tpr c Hvalid Hd) as (_ & _ & _ & _ & _ & Hcols & _).
  fold nt in Hcols.
  assert (Htpr : 0 < tpr) by (destruct Hvalid as (_ & _ & _ & _ & ? & _); lia).
  set (nb := (N self / vec + tpr * c - 1) / (tpr * c)) in *.
  assert (Efull : nt / tpr * tpr = nt).
  { pose proof (Z.div_mod nt tpr ltac:(lia)) as E. lia. }
  assert (H32 : 32 <= nt / tpr * tpr) by lia.
  pose proof (reduction_buffer_layout_Ok self (nt / tpr) tpr vec nb cn Hcn Hs
                ltac:(lia) Htpr H32) as Hl.
  cbv zeta in Hl.
  destruct (default_warps_per_row_divides nt tpr Hcases Htpr Hdiv) as (Hwd & Enw).
  do 3 eexists. split; [exact Hok |]. split; [exact Hl |].
  cbn [ordered_102 cute.shape].
  rewrite reduction_buffer_size; [rewrite Enw; reflexivity | lia | exact Hwd].
Qed.

Lemma reduction_buffer_slot_count_witness :
  exists tiler tv l,
    @_get_tv_layout (policy 64 2)
      (@set_cluster_n (policy 64 2) (__init__ cutlass.Float16 4096 3 cutlass.Float32))
    = Ok (tiler, tv)
    /\ _get_reduction_buffer_layout
         (@set_cluster_n (policy 64 2) (__init__ cutlass.Float16 4096 3 cutlass.Float32))
         tv 2 = Ok l
    /\ cute.size (cute.shape l) = 128 / cute.arch.WARP_SIZE * 2 * 3.
Proof.
  apply (@reduction_buffer_slot_count (policy 64 2)
           (@set_cluster_n (policy 64 2)
              (__init__ cutlass.Float16 4096 3 cutlass.Float32)) 64 2 2).
  - geometry.
  - reflexivity.
  - reflexivity.
  - reflexivity.
  - cbn. lia.
  - lia.
Defined.

(** ** Barriers: from allocation to set-up *)

(** X11: with a cluster size above 1, a positive stage count and a layout
    of at least one warp, the allocation returns a barrier handle whose
    region of 8 x stage bytes is the last one taken from the allocator, and
    every barrier a thread of non-negative index then writes in
    [_initialize_cluster] lies inside that region. *)
Theorem barrier_writes_stay_in_array (self : Self) (smem : cutlass_utils.SmemAllocator)
    (cols tpr vec nb c tidx num_warps : Z) :
  cluster_n self = Some c -> 1 < c -> 0 < stage self ->
  0 < cols -> 0 < tpr -> 32 <= cols * tpr -> 0 <= tidx ->
  exists buf mbar smem' ops rest,
    _allocate_reduction_buffer_and_mbar self smem (tv_layout_of cols tpr vec nb)
    = Ok ((buf, Some mbar), smem')
    /\ cutlass_utils.regions smem' = rest ++ [(cute.addr mbar, 8 * stage self)]
    /\ _initialize_cluster self tidx (Some mbar) num_warps = Ok ops
    /\ forall o p,
         In o ops -> barrier_of o = Some p ->
         cute.addr mbar <= cute.addr p
         /\ cute.addr p + 8 <= cute.addr mbar + 8 * stage self.
Proof.
  intros Hc Hgt Hs Hcols Htpr H32 Htid.
  pose proof (allocate_runs self smem cols tpr vec nb c Hc ltac:(lia) Hs Hcols
                Htpr H32) as Hrun.
  cbv zeta in Hrun.
  destruct (Z.ltb_spec 1 c) as [_ | Hle]; [| lia].
  set (a' := cutlass_utils.align_up _ 8) in Hrun. clearbody a'.
  do 4 eexists. eexists.
  split; [exact Hrun |].
  split; [cbn [cutlass_utils.regions cute.addr]; reflexivity |].
  unfold _initialize_cluster, get_cluster_n, cutlass.const_expr.
  rewrite Hc. cbn [Py.bind].
  destruct (Z.ltb_spec 1 c) as [_ | Hle]; [| lia].
  split; [reflexivity |].
  intros o p Hin Hb.
  destruct (Z.ltb_spec tidx (stage self)) as [Hlt | Hge];
    cbn [app In] in Hin;
    repeat (destruct Hin as [<- | Hin]; [cbn [barrier_of] in Hb; try discriminate Hb |]);
    try contradiction;
    injection Hb as <-; cbn [cute.ptr_add cute.addr cute.dtype cutlass.width cutlass.Int64];
    change (64 / 8) with 8; lia.
Qed.

Lemma barrier_writes_stay_in_array_witness :
  exists buf mbar smem' ops rest,
    _allocate_reduction_buffer_and_mbar
      {| dtype := cutlass.Float16; N := 32768; stage := 2;
         reduction_dtype := cutlass.Float32; cluster_n := Some 2 |}
      {| cutlass_utils.next_free := 0; cutlass_utils.regions := [] |}
      (tv_layout_of 1 256 8 8)
    = Ok ((buf, Some mbar), smem')
    /\ cutlass_utils.regions smem' = rest ++ [(cute.addr mbar, 8 * 2)]
    /\ _initialize_cluster
         {| dtype := cutlass.Float16; N := 32768; stage := 2;
            reduction_dtype := cutlass.Float32; cluster_n := Some 2 |}
         1 (Some mbar) 8 = Ok ops
    /\ forall o p,
         In o ops -> barrier_of o = Some p ->
         cute.addr mbar <= cute.addr p /\ cute.addr p + 8 <= cute.addr mbar + 8 * 2.
Proof.
  apply (barrier_writes_stay_in_array
           {| dtype := cutlass.Float16; N := 32768; stage := 2;
              reduction_dtype := cutlass.Float32; cluster_n := Some 2 |}
           {| cutlass_utils.next_free := 0; cutlass_utils.regions := [] |}
           1 256 8 8 2 1 8);
    try reflexivity; cbn; lia.
Defined.

(** ** What the allocation takes against what the size computation counts *)

Lemma last_digit (m x : Z) :
  0 < m -> (m * x - 1) mod m = m - 1 /\ (m * x - 1) / m = x - 1.
Proof.
  intros Hm. split.
  - symmetry. apply (Z.mod_unique _ _ (x - 1)); [left; lia | ring].
  - symmetry. apply (Z.div_unique _ _ (x - 1) (m - 1)); [left; lia | ring].
Qed.

(** The ordered buffer layout is compact: its cosize is its size. *)
Lemma cosize_ordered (g w c s : Z) :
  0 < g -> 0 < w -> 0 < c -> 0 < s ->
  cute.cosize (ordered_102 g w c s) = g * (w * c) * s.
Proof.
  intros Hg Hw Hc Hs.
  unfold cute.cosize, cute.apply. cbn -[Z.mul Z.div Z.modulo Z.eqb].
  rewrite !Z.mul_1_r.
  destruct (last_digit g (w * c * s) Hg) as (E1 & E2). rewrite E1, E2.
  destruct (last_digit (w * c) s ltac:(nia)) as (E3 & E4). rewrite E3, E4.
  destruct (last_digit w c Hw) as (E5 & E6). rewrite E5, E6.
  rewrite (Z.mod_small (c - 1) c), (Z.mod_small (s - 1) s) by lia.
  rewrite (unit_stride g (g - 1)), (unit_stride w (w - 1)),
    (unit_stride c (c - 1)), (unit_stride s (s - 1)) by lia.
  ring.
Qed.

Lemma align_up_aligned (a k : Z) :
  0 < k -> a mod k = 0 -> cutlass_utils.align_up a k = a.
Proof.
  intros Hk Hm. unfold cutlass_utils.align_up.
  pose proof (Z.div_mod a k ltac:(lia)) as E. rewrite Hm in E.
  replace (a + k - 1) with ((k - 1) + k * (a / k)) by lia.
  destruct (digit_join (k - 1) (a / k) k ltac:(lia)) as (_ & ->). lia.
Qed.

Lemma mod_8_mod_4 (n : Z) : n mod 8 = 0 -> n mod 4 = 0.
Proof.
  intros H. pose proof (Z.div_mod n 8 ltac:(lia)) as E.
  rewrite H, Z.add_0_r in E. rewrite E.
  replace (8 * (n / 8)) with (2 * (n / 8) * 4) by ring.
  apply Z.mod_mul. lia.
Qed.

(** An 8-byte aligned address needs no padding for an accumulator of 1, 2,
    4 or 8 bytes under the 4-byte alignment the allocation asks for. *)
Lemma buffer_needs_no_padding (a rw : Z) :
  In rw [8; 16; 32; 64] -> a mod 8 = 0 ->
  0 <= rw /\ rw mod 8 = 0
  /\ cutlass_utils.align_up a (Z.max 4 (rw / 8)) = a.
Proof.
  intros Hin Ha. pose proof (mod_8_mod_4 a Ha) as Ha4. cbn [In] in Hin.
  destruct Hin as [<- | [<- | [<- | [<- | []]]]];
    (split; [lia |]); (split; [reflexivity |]).
  - change (Z.max 4 (8 / 8)) with 4. apply align_up_aligned; [lia | exact Ha4].
  - change (Z.max 4 (16 / 8)) with 4. apply align_up_aligned; [lia | exact Ha4].
  - change (Z.max 4 (32 / 8)) with 4. apply align_up_aligned; [lia | exact Ha4].
  - change (Z.max 4 (64 / 8)) with 8. apply align_up_aligned; [lia | exact Ha].
Qed.

(** X12: the scratch that [_allocate_reduction_buffer_and_mbar] takes is
    covered by what [_smem_size_in_bytes] counts beside the tile. From an
    8-byte aligned allocator, for a tile of positive extents, a layout of
    at least one warp, a positive stage count, a warp count argument not
    below the layout's, an accumulator of 1, 2, 4 or 8 bytes and, when the
    cluster size is above 1, cluster_n x (accumulator bytes) a multiple of 8
    (so that the barriers need no padding), the bytes taken plus the tile
    bytes do not exceed the computed size; with cluster size 1 no barrier
    is allocated and the 8 x stage bytes counted for barriers stay unused. *)
Theorem allocation_within_budget (self : Self) (smem : cutlass_utils.SmemAllocator)
    (tiler_mn : cute.IntTuple) (cols tpr vec nb num_warps c : Z) :
  let rw := cutlass.width (reduction_dtype self) in
  cluster_n self = Some c -> 0 < c -> 0 < stage self ->
  0 < cols -> 0 < tpr -> 32 <= cols * tpr ->
  cute.all_positive tiler_mn = true ->
  cols * tpr / cute.arch.WARP_SIZE <= num_warps ->
  In rw [8; 16; 32; 64] ->
  cutlass_utils.next_free smem mod 8 = 0 ->
  (1 < c -> (c * (rw / 8)) mod 8 = 0) ->
  exists buf mbar_ptr smem' total tile_layout,
    _allocate_reduction_buffer_and_mbar self smem (tv_layout_of cols tpr vec nb)
    = Ok ((buf, mbar_ptr), smem')
    /\ cute.make_layout tiler_mn = Ok tile_layout
    /\ _smem_size_in_bytes self tiler_mn num_warps = Ok total
    /\ (cutlass_utils.next_free smem' - cutlass_utils.next_free smem)
       + cute.size_in_bytes (dtype self) tile_layout <= total
    /\ (c = 1 ->
        (cutlass_utils.next_free smem' - cutlass_utils.next_free smem)
        + cute.size_in_bytes (dtype self) tile_layout
        + 8 * stage self <= total).
Proof.
  intros rw Hc Hcpos Hs Hcols Htpr H32 Hpos Hnw Hin Hnf Hpad.
  pose proof (allocate_runs self smem cols tpr vec nb c Hc Hcpos Hs Hcols Htpr H32)
    as Hrun.
  cbv zeta in Hrun.
  pose proof (warp_groups_bound cols tpr Hcols Htpr H32) as Hb. cbv zeta in Hb.
  destruct Hb as (Hw1 & Hg1 & Hgw).
  set (w := Z.max (cols / cute.arch.WARP_SIZE) 1) in *.
  set (g := cols * tpr / cute.arch.WARP_SIZE / w) in *.
  destruct (buffer_needs_no_padding (cutlass_utils.next_free smem) rw Hin Hnf)
    as (Hrw & Hrw8 & Hal).
  unfold rw in Hal. rewrite Hal in Hrun.
  set (rb := rw / 8).
  assert (Hrb : 0 <= rb) by (apply Z.div_pos; lia).
  assert (Hbytes : cute.size_in_bytes (reduction_dtype self)
                     (ordered_102 g w c (stage self))
                   = g * w * stage self * (c * rb)).
  { unfold cute.size_in_bytes. rewrite cosize_ordered by lia. fold rw.
    rewrite Z.divide_div_mul_exact;
      [fold rb; ring | lia | apply Z.mod_divide; [lia | exact Hrw8]]. }
  rewrite Hbytes in Hrun.
  destruct (make_layout_Ok tiler_mn Hpos) as (tl & Htl & _).
  assert (Hsize : _smem_size_in_bytes self tiler_mn num_warps
                  = Ok (cute.size_in_bytes (dtype self) tl
                        + stage self * num_warps * c * rb + stage self * 8)).
  { unfold _smem_size_in_bytes, get_cluster_n. rewrite Htl, Hc. reflexivity. }
  assert (Hle : g * w * stage self * (c * rb) <= stage self * num_warps * c * rb).
  { replace (stage self * num_warps * c * rb)
      with (num_warps * stage self * (c * rb)) by ring.
    apply Z.mul_le_mono_nonneg_r; [nia |].
    apply Z.mul_le_mono_nonneg_r; lia. }
  destruct (Z.ltb_spec 1 c) as [Hgt | Hle1].
  - assert (Hal8 : (cutlass_utils.next_free smem + g * w * stage self * (c * rb))
                   mod 8 = 0).
    { apply Z.mod_divide; [lia |]. apply Z.divide_add_r.
      - apply Z.mod_divide; [lia | exact Hnf].
      - apply Z.divide_mul_r. apply Z.mod_divide; [lia | exact (Hpad Hgt)]. }
    rewrite (align_up_aligned _ 8) in Hrun by (lia || exact Hal8).
    do 4 eexists. exists tl. split; [exact Hrun |]. split; [exact Htl |].
    split; [exact Hsize |].
    cbn [cutlass_utils.next_free]. split; [lia | intros ->; lia].
  - do 4 eexists. exists tl. split; [exact Hrun |]. split; [exact Htl |].
    split; [exact Hsize |].
    cbn [cutlass_utils.next_free]. split; [lia | intros _; lia].
Qed.

Lemma allocation_within_budget_witness :
  exists buf mbar_ptr smem' total tile_layout,
    _allocate_reduction_buffer_and_mbar
      {| dtype := cutlass.Float16; N := 32768; stage := 2;
         reduction_dtype := cutlass.Float32; cluster_n := Some 2 |}
      {| cutlass_utils.next_free := 0; cutlass_utils.regions := [] |}
      (tv_layout_of 1 256 8 8)
    = Ok ((buf, mbar_ptr), smem')
    /\ cute.make_layout (cute.Tuple [cute.Int 1; cute.Int 16384]) = Ok tile_layout
    /\ _smem_size_in_bytes
         {| dtype := cutlass.Float16; N := 32768; stage := 2;
            reduction_dtype := cutlass.Float32; cluster_n := Some 2 |}
         (cute.Tuple [cute.Int 1; cute.Int 16384]) 8 = Ok total
    /\ (cutlass_utils.next_free smem' - 0)
       + cute.size_in_bytes cutlass.Float16 tile_layout <= total
    /\ (2 = 1 ->
        (cutlass_utils.next_free smem' - 0)
        + cute.size_in_bytes cutlass.Float16 tile_layout
        + 8 * 2 <= total).
Proof.
  apply (allocation_within_budget
           {| dtype := cutlass.Float16; N := 32768; stage := 2;
              reduction_dtype := cutlass.Float32; cluster_n := Some 2 |}
           {| cutlass_utils.next_free := 0; cutlass_utils.regions := [] |}
           (cute.Tuple [cute.Int 1; cute.Int 16384]) 1 256 8 8 8 2);
    try reflexivity; cbn; lia.
Defined.

(** ** The dtype table *)

(** X13: [torch2cute_dtype_map] has exactly the keys float16, bfloat16 and
    float32; the element type it gives has a width that divides 128, so the
    vector size is 8 or 4 and a vector is exactly 128 bits; hence for every
    dtype of the table a row length that is a multiple of 8 passes the
    divisibility check, and for a valid geometry the planner returns. *)
Theorem table_dtypes_plan_multiples_of_8 {K : Kernel} (t : torch.dtype)
    (ct : cutlass.Numeric) (self : Self) (tpr c : Z) :
  dict_getitem torch2cute_dtype_map t = Some ct ->
  dtype self = ct -> N self mod 8 = 0 ->
  valid_geometry self tpr c ->
  (forall t',
     dict_getitem torch2cute_dtype_map t' <> None
     <-> t' = torch.float16 \/ t' = torch.bfloat16 \/ t' = torch.float32)
  /\ (128 / cutlass.width ct = 8 \/ 128 / cutlass.width ct = 4)
  /\ 128 / cutlass.width ct * cutlass.width ct = 128
  /\ N self mod (128 / cutlass.width ct) = 0
  /\ exists tiler tv, _get_tv_layout self = Ok (tiler, tv).
Proof.
  intros Hget Hdt Hn Hvalid.
  split.
  { intros t'. split.
    - intros Hne. destruct t'; auto; contradiction Hne; reflexivity.
    - intros [-> | [-> | ->]]; discriminate. }
  assert (Hwidth : cutlass.width ct = 16 \/ cutlass.width ct = 32).
  { destruct t; cbn in Hget; try discriminate Hget; injection Hget as <-;
      cbn; auto. }
  assert (Hvec : (128 / cutlass.width ct = 8 \/ 128 / cutlass.width ct = 4)
                 /\ 128 / cutlass.width ct * cutlass.width ct = 128
                 /\ N self mod (128 / cutlass.width ct) = 0).
  { destruct Hwidth as [-> | ->].
    - change (128 / 16) with 8. repeat split; auto.
    - change (128 / 32) with 4. repeat split; auto.
      apply mod_8_mod_4. exact Hn. }
  destruct Hvec as (Hv & Hbits & Hd).
  split; [exact Hv |]. split; [exact Hbits |]. split; [exact Hd |].
  rewrite <- Hdt in Hd.
  pose proof (get_tv_layout_Ok self tpr c Hvalid Hd) as Hok.
  cbv zeta in Hok. do 2 eexists. exact Hok.
Qed.

Lemma table_dtypes_plan_multiples_of_8_witness :
  (forall t',
     dict_getitem torch2cute_dtype_map t' <> None
     <-> t' = torch.float16 \/ t' = torch.bfloat16 \/ t' = torch.float32)
  /\ (128 / cutlass.width cutlass.Float32 = 8 \/ 128 / cutlass.width cutlass.Float32 = 4)
  /\ 128 / cutlass.width cutlass.Float32 * cutlass.width cutlass.Float32 = 128
  /\ 520 mod (128 / cutlass.width cutlass.Float32) = 0
  /\ exists tiler tv,
       @_get_tv_layout (policy 32 1)
         (@set_cluster_n (policy 32 1)
            (__init__ cutlass.Float32 520 1 cutlass.Float32)) = Ok (tiler, tv).
Proof.
  apply (@table_dtypes_plan_multiples_of_8 (policy 32 1) torch.float32
           cutlass.Float32
           (@set_cluster_n (policy 32 1)
              (__init__ cutlass.Float32 520 1 cutlass.Float32)) 32 1).
  - reflexivity.
  - reflexivity.
  - reflexivity.
  - geometry.
Defined.

(** ** Geometries the layout library rejects *)

(** X14: when the kernel asks for more threads per row than the block has
    threads, cols_per_block is 0 and no layout can be built: with both
    assertions passed, a positive N and cluster size and the chunk count
    within 32 bits, the planner raises ValueError from [cute.make_layout]. *)
Theorem planner_rejects_threads_per_row_above_thread_count {K : Kernel}
    (self : Self) (tpr c : Z) :
  let vec := 128 / cutlass.width (dtype self) in
  let nt := get_num_threads self in
  0 < cutlass.width (dtype self) <= 128 ->
  0 < N self -> N self mod vec = 0 ->
  nt mod cute.arch.WARP_SIZE = 0 -> 0 <= nt ->
  calculate_threads_per_row self = Ok tpr -> nt < tpr ->
  cluster_n self = Some c -> 0 < c ->
  N self / vec + tpr * c - 1 <= cute.INT32_MAX ->
  _get_tv_layout self = Raise ValueError.
Proof.
  intros vec nt Hw Hn Hd Hal Hnt Hp Hgt Hc Hcpos Hfit.
  pose proof (vecsize_pos _ Hw) as Hv. fold vec in Hv.
  pose proof (divisible_mul_div (N self) vec ltac:(lia) Hd) as E.
  assert (Ha : 1 <= N self / vec) by nia.
  assert (Hk : 0 < tpr * c) by nia.
  unfold _get_tv_layout.
  rewrite floordiv_Ok by lia. cbn [Py.bind]. fold vec.
  rewrite modulo_Ok by lia. cbn [Py.bind]. rewrite Hd.
  cbn [Z.eqb Py.assert_ Py.bind]. fold nt.
  rewrite modulo_Ok by (unfold cute.arch.WARP_SIZE; lia). cbn [Py.bind]. rewrite Hal.
  cbn [Z.eqb Py.assert_ Py.bind]. rewrite Hp. cbn [Py.bind].
  rewrite floordiv_Ok by lia. cbn [Py.bind].
  unfold get_cluster_n. rewrite Hc. cbn [Py.bind].
  rewrite ceil_div_Ok by lia. cbn [Py.bind].
  rewrite floordiv_Ok by lia. cbn [Py.bind].
  rewrite (Z.div_small nt tpr) by lia.
  unfold cute.make_layout_stride. cbn [cute.all_positive forallb Z.ltb Z.compare andb].
  reflexivity.
Qed.

Lemma planner_rejects_threads_per_row_above_thread_count_witness :
  @_get_tv_layout (policy 256 1)
    (@set_cluster_n (policy 256 1) (__init__ cutlass.Float16 512 1 cutlass.Float32))
  = Raise ValueError.
Proof.
  apply (@planner_rejects_threads_per_row_above_thread_count (policy 256 1)
           (@set_cluster_n (policy 256 1)
              (__init__ cutlass.Float16 512 1 cutlass.Float32)) 256 1);
    try reflexivity; cbn; unfold cute.INT32_MAX; lia.
Defined.

(** X15: an empty row is rejected: with N = 0 both assertions pass (0 is a
    multiple of every vector size), and with a positive threads-per-row and
    cluster size the planner raises ValueError from [cute.ceil_div], whose
    first argument, the chunk count, is 0. *)
Theorem planner_rejects_empty_row {K : Kernel} (self : Self) (tpr c : Z) :
  0 < cutlass.width (dtype self) <= 128 ->
  N self = 0 ->
  get_num_threads self mod cute.arch.WARP_SIZE = 0 ->
  calculate_threads_per_row self = Ok tpr -> 0 < tpr ->
  cluster_n self = Some c -> 0 < c ->
  _get_tv_layout self = Raise ValueError.
Proof.
  intros Hw Hn Hal Hp Htpr Hc Hcpos.
  pose proof (vecsize_pos _ Hw) as Hv.
  unfold _get_tv_layout. rewrite Hn.
  rewrite floordiv_Ok by lia. cbn [Py.bind].
  rewrite modulo_Ok by lia. cbn [Py.bind]. rewrite Z.mod_0_l by lia.
  cbn [Z.eqb Py.assert_ Py.bind].
  rewrite modulo_Ok by (unfold cute.arch.WARP_SIZE; lia). cbn [Py.bind]. rewrite Hal.
  cbn [Z.eqb Py.assert_ Py.bind]. rewrite Hp. cbn [Py.bind].
  rewrite floordiv_Ok by lia. cbn [Py.bind].
  unfold get_cluster_n. rewrite Hc. cbn [Py.bind].
  rewrite Z.div_0_l by lia. reflexivity.
Qed.

Lemma planner_rejects_empty_row_witness :
  @_get_tv_layout (policy 32 1)
    (@set_cluster_n (policy 32 1) (__init__ cutlass.Float16 0 1 cutlass.Float32))
  = Raise ValueError.
Proof.
  apply (@planner_rejects_empty_row (policy 32 1)
           (@set_cluster_n (policy 32 1)
              (__init__ cutlass.Float16 0 1 cutlass.Float32)) 32 1);
    try reflexivity; cbn; lia.
Defined.
